(** * The spaCy / NLTK timing notebook: benchmark-and-fit procedure

    A shallow embedding of the code cells of [nltk_vs_spacy.ipynb]:

    - the two timing cells (best of three wall-clock trials per text),
    - the log-log transformation and the call to [stats.linregress],
    - the two extrapolation functions [reg_spacy] and [reg_nltk] and the
      list comprehensions that evaluate them for the plot.

    Python [float]s are modelled by real numbers, with the infinities and
    [nan] as values of their own.  Rounding is not modelled.  The range of
    a double is, where the notebook itself takes powers of ten and
    multiplies them (the extrapolation): a result beyond the range is an
    infinity, one too close to zero is zero, and zero times an infinity is
    [nan].  Python exceptions are an explicit result; the wall clock and
    the calls into the NLP libraries are an explicit world. *)

From Stdlib Require Import Reals Lra Lia List String ZArith Bool Arith.
Import ListNotations.
Open Scope R_scope.

(** ** Python exceptions and results *)

Inductive exn : Type :=
| ValueError (msg : string).

Inductive outcome (A : Type) : Type :=
| Ok (a : A)
| Raise (e : exn).
Arguments Ok {A} a.
Arguments Raise {A} e.

(** ** The timing cells *)

Module Runner.

(** Calls into the external NLP libraries, as the timing cells make them. *)
Inductive call : Type :=
| Nlp (text : string)
| SentTokenize (text : string)
| WordTokenize (sent : string)
| PosTag (tokens : list string)
| NeChunk (tokens : list string).

(** What an observer of a run sees: a reading of the wall clock, or a call
    into a library. *)
Inductive event : Type :=
| Reading (t : R)
| Invoked (c : call).

(** The world of a run: how many times [time()] has been read so far, and
    everything that happened, oldest first. *)
Record World : Type := mkWorld { ticks : nat; trace : list event }.

Definition M (A : Type) : Type := World -> outcome A * World.

Definition ret {A} (a : A) : M A := fun w => (Ok a, w).

Definition bind {A B} (m : M A) (k : A -> M B) : M B :=
  fun w =>
    match m w with
    | (Ok a, w') => k a w'
    | (Raise e, w') => (Raise e, w')
    end.

Definition lift {A} (o : outcome A) : M A := fun w => (o, w).

Notation "x <- m ;; k" := (bind m (fun x => k))
  (at level 61, m at next level, right associativity).
Notation "m ;;; k" := (bind m (fun _ => k))
  (at level 61, right associativity).

(** [for x in xs: body], with the variables the body updates threaded as
    [acc]. *)
Fixpoint for_ {A S} (xs : list A) (body : A -> S -> M S) (acc : S) : M S :=
  match xs with
  | [] => ret acc
  | x :: xs' => acc' <- body x acc ;; for_ xs' body acc'
  end.

(** [range(n)] *)
Definition range (n : nat) : list nat := seq 0 n.

(** Python's [min] of a list of floats: the first smallest element; an
    empty list raises. *)
Definition py_min (l : list R) : outcome R :=
  match l with
  | [] => Raise (ValueError "min() arg is an empty sequence")
  | x :: rest => Ok (fold_left (fun m y => if Rlt_dec y m then y else m) rest x)
  end.

Section Run.

(** The wall clock: [clock k] is what the [k]-th call of [time()] returns. *)
Variable clock : nat -> R.

(** The results of NLTK's tokenizers, which decide how many calls the NLTK
    pipeline makes. *)
Variable sent_tokenize : string -> list string.
Variable word_tokenize : string -> list string.

Definition time : M R :=
  fun w =>
    let t := clock (ticks w) in
    (Ok t, mkWorld (S (ticks w)) (trace w ++ [Reading t])).

(** A call into a library: it is recorded and returns.  The libraries are
    opaque; a call that raised would end the cell there, which the notebook
    does nothing about. *)
Definition invoke (c : call) : M unit :=
  fun w => (Ok tt, mkWorld (ticks w) (trace w ++ [Invoked c])).

(** [nlp(text)] *)
Definition nlp (text : string) : M unit := invoke (Nlp text).

(** [sentences = [word_tokenize(sent) for sent in sent_tokenize(text)]]
    [for sent in sentences: ne_chunk(pos_tag(sent))] *)
Definition nltk_pipeline (text : string) : M unit :=
  invoke (SentTokenize text) ;;;
  sentences <- for_ (sent_tokenize text)
                 (fun sent acc =>
                    invoke (WordTokenize sent) ;;;
                    ret (acc ++ [word_tokenize sent])) [] ;;
  for_ sentences
    (fun sent _ => invoke (PosTag sent) ;;; invoke (NeChunk sent)) tt.

(** The body both timing cells share, for one text:
    [times = []]
    [for _ in range(3): t1 = time(); <pipeline>; t2 = time(); times.append(t2-t1)] *)
Definition three_trials (pipeline : string -> M unit) (text : string)
  : M (list R) :=
  for_ (range 3)
    (fun _ times =>
       t1 <- time ;;
       pipeline text ;;;
       t2 <- time ;;
       ret (times ++ [t2 - t1])) [].

(** [results = []]
    [for text in text_data: times = ...; results.append(min(times))] *)
Definition timed_runner (pipeline : string -> M unit)
  (text_data : list string) : M (list R) :=
  for_ text_data
    (fun text results =>
       times <- three_trials pipeline text ;;
       best <- lift (py_min times) ;;
       ret (results ++ [best])) [].

(** The list [spacy] of the fourth cell and the list [nltk] of the fifth. *)
Definition spacy (text_data : list string) : M (list R) :=
  timed_runner nlp text_data.

Definition nltk (text_data : list string) : M (list R) :=
  timed_runner nltk_pipeline text_data.

(** The notebook runs the spaCy cell, then the NLTK cell, in one session. *)
Definition timing_cells (text_data : list string) : M (list R * list R) :=
  s <- spacy text_data ;;
  n <- nltk text_data ;;
  ret (s, n).

(** *** What the three trials of a sample are

    The [i]-th text of a cell started after [t0] clock readings is timed by
    the readings [t0 + 6 i .. t0 + 6 i + 5]: trial [j] is bracketed by the
    readings [2 j] and [2 j + 1] of that block. *)
Definition trial_duration (t0 j : nat) : R :=
  clock (t0 + 2 * j + 1) - clock (t0 + 2 * j).

Definition sample_trials (t0 i : nat) : list R :=
  map (trial_duration (t0 + 6 * i)) (range 3).

(** The calls one run of each pipeline makes. *)
Definition nlp_calls (text : string) : list call := [Nlp text].

Definition nltk_calls (text : string) : list call :=
  SentTokenize text
    :: map WordTokenize (sent_tokenize text)
    ++ flat_map (fun sent => [PosTag (word_tokenize sent);
                              NeChunk (word_tokenize sent)])
         (sent_tokenize text).

(** The events of trial [j] of a text timed from reading [t0] on. *)
Definition trial_events (calls : string -> list call) (text : string)
  (t0 j : nat) : list event :=
  Reading (clock (t0 + 2 * j))
    :: map Invoked (calls text) ++ [Reading (clock (t0 + 2 * j + 1))].

Definition sample_events (calls : string -> list call) (t0 : nat)
  (i : nat) (text : string) : list event :=
  flat_map (trial_events calls text (t0 + 6 * i)) (range 3).

Fixpoint corpus_events (calls : string -> list call) (t0 : nat) (i : nat)
  (text_data : list string) : list event :=
  match text_data with
  | [] => []
  | text :: rest =>
      sample_events calls t0 i text ++ corpus_events calls t0 (S i) rest
  end.

(** A pipeline performs [calls]: run on a text it returns normally, never
    reads the clock and makes exactly the calls [calls text], in order. *)
Definition performs (pipeline : string -> M unit)
  (calls : string -> list call) : Prop :=
  forall text w,
    pipeline text w
    = (Ok tt, mkWorld (ticks w) (trace w ++ map Invoked (calls text))).

(** The least of the three trials of sample [i]. *)
Definition best_of_three (t0 i : nat) : R :=
  Rmin (trial_duration (t0 + 6 * i) 0)
    (Rmin (trial_duration (t0 + 6 * i) 1) (trial_duration (t0 + 6 * i) 2)).

(** [r] is the minimum of the three durations [trials]. *)
Definition least_of_three (r : R) (trials : list R) : Prop :=
  exists d0 d1 d2,
    trials = [d0; d1; d2] /\ r = Rmin d0 (Rmin d1 d2).

End Run.

(** A world in which nothing has happened yet. *)
Definition fresh : World := mkWorld 0 [].

End Runner.

(** ** The cell between loading and timing *)

(** [n_chars = [len(text) for text in text_data]]; a text is the sequence
    of its characters. *)
Definition n_chars (text_data : list string) : list Z :=
  map (fun text => Z.of_nat (String.length text)) text_data.

(** ** The regression cells *)

Module Fitter.

(** A float: a real number, an infinity with its sign, or [nan].  Rounding
    is not modelled; the range of a double is, by [float64] below. *)
Inductive pyfloat : Type :=
| Fin (x : R)
| Inf (negative : bool)
| NaN.

Definition is_negative (x : R) : bool :=
  if Rlt_dec x 0 then true else false.

(** The product and the difference of two floats in exact arithmetic, as
    the model of [stats.linregress] uses them: its operands are
    logarithms and their moments, far from the limits of the range. *)
Definition fmul (a b : pyfloat) : pyfloat :=
  match a with
  | Fin x =>
      match b with
      | Fin y => Fin (x * y)
      | Inf s => if Req_dec_T x 0 then NaN else Inf (xorb s (is_negative x))
      | NaN => NaN
      end
  | Inf s =>
      match b with
      | Fin y => if Req_dec_T y 0 then NaN else Inf (xorb s (is_negative y))
      | Inf s' => Inf (xorb s s')
      | NaN => NaN
      end
  | NaN => NaN
  end.

Definition fsub (a b : pyfloat) : pyfloat :=
  match a with
  | Fin x =>
      match b with
      | Fin y => Fin (x - y)
      | Inf s => Inf (negb s)
      | NaN => NaN
      end
  | Inf s =>
      match b with
      | Fin _ => Inf s
      | Inf s' => if Bool.eqb s s' then NaN else Inf s
      | NaN => NaN
      end
  | NaN => NaN
  end.

(** [a ** 2] *)
Definition fsquare (a : pyfloat) : pyfloat := fmul a a.

(** The range of a double.  A result whose magnitude reaches
    [float_overflow], half way between the largest double and [2^1024],
    becomes an infinity; one whose magnitude does not exceed
    [float_underflow], half the smallest positive double, becomes zero. *)
Definition float_overflow : R := 2 ^ 1024 - 2 ^ 970.

Definition float_underflow : R := / 2 ^ 1075.

(** An exact result as NumPy's [float64] returns it, rounding aside. *)
Definition float64 (v : R) : pyfloat :=
  if Rle_dec float_overflow (Rabs v) then Inf (is_negative v)
  else if Rle_dec (Rabs v) float_underflow then Fin 0
  else Fin v.

(** [v] is zero or within the range: [float64] leaves it as it is. *)
Definition in_range (v : R) : Prop :=
  v = 0 \/ float_underflow < Rabs v < float_overflow.

(** [a * b] on [float64]: the exact product brought into the range, an
    infinity times zero being [nan]. *)
Definition np_multiply (a b : pyfloat) : pyfloat :=
  match a with
  | Fin x =>
      match b with
      | Fin y => float64 (x * y)
      | Inf s => if Req_dec_T x 0 then NaN else Inf (xorb s (is_negative x))
      | NaN => NaN
      end
  | Inf s =>
      match b with
      | Fin y => if Req_dec_T y 0 then NaN else Inf (xorb s (is_negative y))
      | Inf s' => Inf (xorb s s')
      | NaN => NaN
      end
  | NaN => NaN
  end.

(** [10 ** a] on [float64]: an infinity when the power overflows, zero
    when it underflows. *)
Definition fpow10 (a : pyfloat) : pyfloat :=
  match a with
  | Fin x => float64 (Rpower 10 x)
  | Inf false => Inf false
  | Inf true => Fin 0
  | NaN => NaN
  end.

(** Division of two NumPy floats.  NumPy does not raise on a zero divisor:
    it warns and returns [nan] for [0/0] (and an infinity for [x/0] with
    [x <> 0], which [linregress] cannot reach: its only divisor that can be
    zero is the variance of [x], and then the covariance it divides is zero
    too, see [ssxym_zero]). *)
Definition np_divide (a b : R) : pyfloat :=
  if Req_dec_T b 0 then NaN else Fin (a / b).

Definition bind {A B} (o : outcome A) (k : A -> outcome B) : outcome B :=
  match o with
  | Ok a => k a
  | Raise e => Raise e
  end.

Notation "x <- m ;; k" := (bind m (fun x => k))
  (at level 61, m at next level, right associativity).

(** A list comprehension [[f(x) for x in xs]] whose [f] may raise: the
    first element that raises ends it. *)
Fixpoint comprehension {A B} (f : A -> outcome B) (xs : list A)
  : outcome (list B) :=
  match xs with
  | [] => Ok []
  | x :: xs' =>
      y <- f x ;;
      ys <- comprehension f xs' ;;
      Ok (y :: ys)
  end.

Definition log10 (x : R) : R := ln x / ln 10.

(** [math.log10]: raises [ValueError: math domain error] unless [x > 0]. *)
Definition math_log10 (x : R) : outcome R :=
  if Rlt_dec 0 x then Ok (log10 x)
  else Raise (ValueError "math domain error").

(** *** [stats.linregress]

    SciPy's function is a library of the notebook, not part of it.  The
    model is the least-squares fit SciPy computes, in exact arithmetic:
    means, the biased variances and covariance ([np.cov(x, y, bias=1)]),
    the correlation [r] (set to [0.0] when its denominator is zero and
    clipped to [[-1, 1]]), [slope = r_num / ssxm] and
    [intercept = ymean - slope * xmean].  Empty input is refused.  The
    p-value and the standard error, which the notebook discards, are left
    out. *)

Definition sum (l : list R) : R := fold_right Rplus 0 l.

Definition mean (l : list R) : R := sum l / INR (List.length l).

(** The mean of the products of the deviations of [x] and [y] from [mx] and
    [my]; with [y = x] the biased variance. *)
Fixpoint sum_dev (mx my : R) (x y : list R) : R :=
  match x, y with
  | a :: x', b :: y' => (a - mx) * (b - my) + sum_dev mx my x' y'
  | _, _ => 0
  end.

Definition cov (x y : list R) : R :=
  sum_dev (mean x) (mean y) x y / INR (List.length x).

Definition clip (r : R) : R :=
  if Rlt_dec 1 r then 1
  else if Rlt_dec r (-1) then -1
  else r.

Record LinregressResult : Type := mkLinregress {
  slope : pyfloat;
  intercept : pyfloat;
  rvalue : pyfloat
}.

Definition linregress (x y : list R) : outcome LinregressResult :=
  match x, y with
  | [], _ | _, [] => Raise (ValueError "Inputs must not be empty.")
  | _ :: _, _ :: _ =>
      if negb (List.length x =? List.length y)%nat then
        Raise (ValueError "all the input array dimensions must match exactly")
      else
        let xmean := mean x in
        let ymean := mean y in
        let ssxm := cov x x in
        let ssxym := cov x y in
        let ssym := cov y y in
        let r_num := ssxym in
        let r_den := sqrt (ssxm * ssym) in
        let r := if Req_dec_T r_den 0 then 0 else clip (r_num / r_den) in
        let slope := np_divide r_num ssxm in
        let intercept := fsub (Fin ymean) (fmul slope (Fin xmean)) in
        Ok (mkLinregress slope intercept (Fin r))
  end.

(** *** The cells *)

(** What the notebook keeps of a fit: [(m, b, r ** 2)]. *)
Record FitResult : Type := mkFit {
  fit_slope : pyfloat;
  fit_intercept : pyfloat;
  r_squared : pyfloat
}.

(** [log_chars = [math.log10(n) for n in n_chars]] *)
Definition log_sizes (n_chars : list Z) : outcome (list R) :=
  comprehension (fun n => math_log10 (IZR n)) n_chars.

(** The value of [log_chars] when no size makes [math.log10] raise. *)
Definition logs_of (n_chars : list Z) : list R :=
  map (fun n => log10 (IZR n)) n_chars.

(** [log_spacy = [math.log10(t) for t in spacy]], and the same for [nltk] *)
Definition log_times (times : list R) : outcome (list R) :=
  comprehension math_log10 times.

(** [m, b, r, _, _ = stats.linregress(log_chars, log_t)] and the value of
    the cell, [m, b, r**2] *)
Definition fit_cell (log_chars log_t : list R) : outcome FitResult :=
  res <- linregress log_chars log_t ;;
  Ok (mkFit (slope res) (intercept res) (fsquare (rvalue res))).

(** The Log-Log Regression Fitter for one pipeline: the logarithms of the
    sizes and of that pipeline's durations, then the fit. *)
Definition fitter (n_chars : list Z) (times : list R) : outcome FitResult :=
  log_chars <- log_sizes n_chars ;;
  log_t <- log_times times ;;
  fit_cell log_chars log_t.

(** The three regression cells in the notebook's order: all three
    logarithm lists first, then the spaCy fit, then the NLTK fit. *)
Definition regression_cells (n_chars : list Z) (spacy nltk : list R)
  : outcome (FitResult * FitResult) :=
  log_chars <- log_sizes n_chars ;;
  log_spacy <- log_times spacy ;;
  log_nltk <- log_times nltk ;;
  fit_spacy <- fit_cell log_chars log_spacy ;;
  fit_nltk <- fit_cell log_chars log_nltk ;;
  Ok (fit_spacy, fit_nltk).

(** *** Extrapolation *)

(** [def reg_spacy(x): return (10 ** b_spacy) * (10 ** (m_spacy * math.log10(x)))]
    with the globals [m_spacy] and [b_spacy] as arguments. *)
Definition reg_spacy (m_spacy b_spacy : pyfloat) (x : R) : outcome pyfloat :=
  l <- math_log10 x ;;
  Ok (np_multiply (fpow10 b_spacy) (fpow10 (np_multiply m_spacy (Fin l)))).

Definition reg_nltk (m_nltk b_nltk : pyfloat) (x : R) : outcome pyfloat :=
  l <- math_log10 x ;;
  Ok (np_multiply (fpow10 b_nltk) (fpow10 (np_multiply m_nltk (Fin l)))).

(** [[reg_spacy(x) for x in n_chars]] and [[reg_nltk(x) for x in n_chars]],
    the second arguments of the two [ax.plot] calls. *)
Definition plot_spacy (m b : pyfloat) (n_chars : list Z)
  : outcome (list pyfloat) :=
  comprehension (fun x => reg_spacy m b (IZR x)) n_chars.

Definition plot_nltk (m b : pyfloat) (n_chars : list Z)
  : outcome (list pyfloat) :=
  comprehension (fun x => reg_nltk m b (IZR x)) n_chars.

(** The power law the fit stands for, [10^intercept * x^slope]. *)
Definition power_law (slope intercept x : R) : R :=
  Rpower 10 intercept * Rpower x slope.


(** A float that is not below zero: [nan], the positive infinity, or a
    number that is zero or positive. *)
Definition not_negative (v : pyfloat) : Prop :=
  match v with
  | Fin y => 0 <= y
  | Inf negative => negative = false
  | NaN => True
  end.

(** A valid input of the fitter: parallel lists of positive sizes and
    positive durations, with two distinct sizes among them. *)
Definition two_distinct (n_chars : list Z) : Prop :=
  exists a b, In a n_chars /\ In b n_chars /\ a <> b.

Definition valid_input (n_chars : list Z) (times : list R) : Prop :=
  List.length n_chars = List.length times /\
  Forall (fun n => (0 < n)%Z) n_chars /\
  Forall (fun t => 0 < t) times /\
  two_distinct n_chars.

End Fitter.

(** ** The notebook as a whole *)

Module Notebook.

(** The library calls of a trace, and its clock readings, each in order. *)
Fixpoint calls_of (tr : list Runner.event) : list Runner.call :=
  match tr with
  | [] => []
  | Runner.Reading _ :: rest => calls_of rest
  | Runner.Invoked c :: rest => c :: calls_of rest
  end.


(** What the last cell hands to the plotting library: the measured points
    of the two [ax.scatter] calls and the curves of the two [ax.plot]
    calls, all over [n_chars]; with them the two fits the notebook
    displays. *)
Record Figure : Type := mkFigure {
  sizes : list Z;
  points_spacy : list R;
  points_nltk : list R;
  fit_spacy : Fitter.FitResult;
  fit_nltk : Fitter.FitResult;
  curve_spacy : list Fitter.pyfloat;
  curve_nltk : list Fitter.pyfloat
}.

(** The cells after the timing, on the two lists of durations: the
    regression cells, then the two comprehensions of the plotting cell. *)
Definition analysis (text_data : list string) (spacy nltk : list R)
  : outcome Figure :=
  Fitter.bind (Fitter.regression_cells (n_chars text_data) spacy nltk)
    (fun fits =>
       let (fs, fn) := fits in
       Fitter.bind
         (Fitter.plot_spacy (Fitter.fit_slope fs) (Fitter.fit_intercept fs)
            (n_chars text_data))
         (fun cs =>
            Fitter.bind
              (Fitter.plot_nltk (Fitter.fit_slope fn)
                 (Fitter.fit_intercept fn) (n_chars text_data))
              (fun cn =>
                 Ok (mkFigure (n_chars text_data) spacy nltk fs fn cs cn)))).

(** All code cells in order, on a loaded corpus: sizes, the two timing
    cells, the regression cells, the plot data.  An exception ends the
    run where it is raised. *)
Definition notebook (clock : nat -> R)
  (sent_tokenize word_tokenize : string -> list string)
  (text_data : list string) : Runner.M Figure :=
  fun w =>
    match Runner.timing_cells clock sent_tokenize word_tokenize text_data w with
    | (Ok (spacy, nltk), w') => (analysis text_data spacy nltk, w')
    | (Raise e, w') => (Raise e, w')
    end.

(** The sum of the squared deviations of the points [(x, y)] from the line
    of slope [m] and intercept [b]: what a least-squares fit makes as small
    as possible. *)
Fixpoint squared_error (m b : R) (x y : list R) : R :=
  match x, y with
  | a :: x', c :: y' =>
      (c - (m * a + b)) * (c - (m * a + b)) + squared_error m b x' y'
  | _, _ => 0
  end.

End Notebook.

(** * Properties of the timing cells *)

Section RunnerFacts.

Import Runner.

Variable clock : nat -> R.
Variable sent_tokenize : string -> list string.
Variable word_tokenize : string -> list string.

Lemma py_min_three (a b c : R) :
  py_min [a; b; c] = Ok (Rmin a (Rmin b c)).
Proof.
  simpl. f_equal. unfold Rmin.
  repeat (destruct (Rlt_dec _ _) || destruct (Rle_dec _ _)); lra.
Qed.

Lemma nlp_performs : performs nlp nlp_calls.
Proof. intros text w. reflexivity. Qed.

Lemma tokenize_loop (sents : list string) (acc : list (list string)) w :
  for_ sents
    (fun sent acc =>
       invoke (WordTokenize sent) ;;; ret (acc ++ [word_tokenize sent]))
    acc w
  = (Ok (acc ++ map word_tokenize sents),
     mkWorld (ticks w) (trace w ++ map Invoked (map WordTokenize sents))).
Proof.
  revert acc w. induction sents as [|s sents IH]; intros acc w.
  - simpl. unfold ret. rewrite !app_nil_r. destruct w; reflexivity.
  - simpl. unfold bind at 1. simpl. rewrite IH. simpl.
    rewrite <- !app_assoc. reflexivity.
Qed.

Lemma chunk_loop (sentences : list (list string)) (u : unit) w :
  for_ sentences
    (fun sent _ => invoke (PosTag sent) ;;; invoke (NeChunk sent)) u w
  = (Ok tt,
     mkWorld (ticks w)
       (trace w ++ map Invoked
          (flat_map (fun sent => [PosTag sent; NeChunk sent]) sentences))).
Proof.
  revert u w. induction sentences as [|s sentences IH]; intros u w.
  - simpl. unfold ret. rewrite app_nil_r. destruct u, w; reflexivity.
  - simpl. unfold bind at 1. simpl. rewrite IH. simpl.
    rewrite <- !app_assoc. reflexivity.
Qed.

Lemma flat_map_map {A B C} (f : A -> B) (g : B -> list C) (l : list A) :
  flat_map g (map f l) = flat_map (fun a => g (f a)) l.
Proof. induction l; simpl; congruence. Qed.

Lemma nltk_performs :
  performs (nltk_pipeline sent_tokenize word_tokenize)
           (nltk_calls sent_tokenize word_tokenize).
Proof.
  intros text w. unfold nltk_pipeline, nltk_calls.
  unfold bind at 1. simpl.
  unfold bind at 1. rewrite tokenize_loop. simpl.
  rewrite chunk_loop. simpl.
  rewrite flat_map_map, !map_app, <- !app_assoc. reflexivity.
Qed.

Section Generic.

Variable pipeline : string -> M unit.
Variable calls : string -> list call.
Hypothesis pipeline_performs : performs pipeline calls.

Lemma three_trials_run (text : string) w :
  three_trials clock pipeline text w
  = (Ok (map (trial_duration clock (ticks w)) (range 3)),
     mkWorld (ticks w + 6)
       (trace w ++ flat_map (trial_events clock calls text (ticks w))
                     (range 3))).
Proof.
  unfold three_trials, range. simpl.
  unfold bind, time, ret. simpl.
  rewrite !pipeline_performs. simpl.
  unfold trial_duration.
  replace (ticks w + 2 * 0)%nat with (ticks w) by lia.
  replace (ticks w + 0)%nat with (ticks w) by lia.
  replace (ticks w + 1)%nat with (S (ticks w)) by lia.
  replace (ticks w + 2 * 1)%nat with (S (S (ticks w))) by lia.
  replace (ticks w + 2)%nat with (S (S (ticks w))) by lia.
  replace (ticks w + 2 * 2)%nat with (S (S (S (S (ticks w))))) by lia.
  replace (ticks w + 4)%nat with (S (S (S (S (ticks w))))) by lia.
  replace (ticks w + 6)%nat with (S (S (S (S (S (S (ticks w))))))) by lia.
  replace (S (S (ticks w)) + 1)%nat with (S (S (S (ticks w)))) by lia.
  replace (S (S (S (S (ticks w)))) + 1)%nat
    with (S (S (S (S (S (ticks w)))))) by lia.
  f_equal. f_equal.
  repeat (rewrite <- app_assoc || rewrite <- app_comm_cons || rewrite app_nil_r
          || (progress simpl)).
  reflexivity.
Qed.

(** The loop over the corpus, from any point of it: with [i] samples done
    and their results in [acc], the remaining samples append their best
    trial each, in order. *)
Lemma runner_loop (t0 : nat) (rest : list string) :
  forall (i : nat) (acc : list R) w,
    ticks w = (t0 + 6 * i)%nat ->
    for_ rest
      (fun text results =>
         times <- three_trials clock pipeline text ;;
         best <- lift (py_min times) ;;
         ret (results ++ [best])) acc w
    = (Ok (acc ++ map (best_of_three clock t0) (seq i (List.length rest))),
       mkWorld (t0 + 6 * (i + List.length rest))
         (trace w ++ corpus_events clock calls t0 i rest)).
Proof.
  induction rest as [|text rest IH]; intros i acc w Hw.
  - destruct w as [tk tr]. cbn [ticks] in Hw. subst tk.
    cbn [for_ List.length seq map corpus_events trace]. unfold ret.
    rewrite !app_nil_r, Nat.add_0_r. reflexivity.
  - cbn [for_]. unfold bind at 1. unfold bind at 1.
    rewrite three_trials_run. unfold range. cbn [seq map].
    unfold bind at 1. unfold lift at 1. rewrite py_min_three.
    unfold ret at 1.
    rewrite (IH (S i)) by (cbn [ticks]; lia).
    cbn [List.length seq map corpus_events trace].
    rewrite <- !app_assoc. cbn [app]. f_equal.
    + unfold best_of_three. rewrite Hw. reflexivity.
    + f_equal; [lia|]. unfold sample_events, range. rewrite Hw.
      reflexivity.
Qed.

Lemma timed_runner_run (text_data : list string) w :
  timed_runner clock pipeline text_data w
  = (Ok (map (best_of_three clock (ticks w))
           (seq 0 (List.length text_data))),
     mkWorld (ticks w + 6 * List.length text_data)
       (trace w ++ corpus_events clock calls (ticks w) 0 text_data)).
Proof.
  unfold timed_runner.
  rewrite (runner_loop (ticks w) text_data 0 [] w) by lia.
  reflexivity.
Qed.

End Generic.

(** Both cells, run one after the other from any world: the results of
    each, the clock readings used and everything that happened. *)
Lemma timing_cells_run (text_data : list string) w :
  let len := List.length text_data in
  timing_cells clock sent_tokenize word_tokenize text_data w
  = (Ok (map (best_of_three clock (ticks w)) (seq 0 len),
         map (best_of_three clock (ticks w + 6 * len)) (seq 0 len)),
     mkWorld (ticks w + 6 * len + 6 * len)
       (trace w
          ++ corpus_events clock nlp_calls (ticks w) 0 text_data
          ++ corpus_events clock (nltk_calls sent_tokenize word_tokenize)
               (ticks w + 6 * len) 0 text_data)).
Proof.
  intros len. unfold timing_cells, spacy, nltk.
  unfold bind at 1. rewrite (timed_runner_run nlp nlp_calls nlp_performs).
  unfold bind at 1.
  rewrite (timed_runner_run _ _ nltk_performs).
  unfold ret. cbn [ticks trace]. rewrite <- app_assoc. reflexivity.
Qed.

Lemma nth_best (t0 len i : nat) :
  (i < len)%nat ->
  nth i (map (best_of_three clock t0) (seq 0 len)) 0
  = best_of_three clock t0 i.
Proof.
  intros Hi.
  rewrite (nth_indep _ 0 (best_of_three clock t0 0))
    by (rewrite length_map, length_seq; exact Hi).
  rewrite (map_nth (best_of_three clock t0)), seq_nth by exact Hi.
  reflexivity.
Qed.

Lemma best_is_least (t0 i : nat) :
  least_of_three (best_of_three clock t0 i) (sample_trials clock t0 i).
Proof.
  unfold least_of_three, sample_trials, best_of_three, range. simpl.
  eexists _, _, _. split; reflexivity.
Qed.

Ltac forall_three :=
  apply Forall_cons;
  [|apply Forall_cons; [|apply Forall_cons; [|apply Forall_nil]]].

(** C1. For every text sample the runner records exactly the minimum of
    the three trial durations measured for that sample, in the spaCy cell
    and in the NLTK cell run after it; so the recorded duration is at most
    the duration of each of the three trials. *)
Theorem runner_records_minimum (text_data : list string) (w : World)
  (i : nat) :
  (i < List.length text_data)%nat ->
  exists s n w',
    timing_cells clock sent_tokenize word_tokenize text_data w
    = (Ok (s, n), w') /\
    (least_of_three (nth i s 0) (sample_trials clock (ticks w) i) /\
     Forall (fun d => nth i s 0 <= d) (sample_trials clock (ticks w) i)) /\
    (least_of_three (nth i n 0)
       (sample_trials clock (ticks w + 6 * List.length text_data) i) /\
     Forall (fun d => nth i n 0 <= d)
       (sample_trials clock (ticks w + 6 * List.length text_data) i)).
Proof.
  intros Hi. eexists _, _, _. split; [apply timing_cells_run|].
  rewrite !nth_best by exact Hi.
  split; (split; [apply best_is_least|]);
    unfold sample_trials, best_of_three, range; simpl;
    forall_three;
    unfold Rmin; repeat destruct (Rle_dec _ _); lra.
Qed.

(** C7. On an empty corpus each timing cell returns an empty result list
    and leaves the world as it found it: the clock is not read and no
    library function is called. *)
Theorem empty_corpus_runs_nothing (w : World) :
  spacy clock [] w = (Ok [], w) /\
  nltk clock sent_tokenize word_tokenize [] w = (Ok [], w) /\
  timing_cells clock sent_tokenize word_tokenize [] w = (Ok ([], []), w).
Proof. repeat split. Qed.

(** C8, as the code has it.  The recorded duration of a sample is positive
    exactly when each of its three trials measured a positive duration,
    that is when in each trial the clock reading after the pipeline is
    later than the reading before it. *)
Theorem elapsed_positive_iff (text_data : list string) (w : World)
  (i : nat) :
  (i < List.length text_data)%nat ->
  exists s n w',
    timing_cells clock sent_tokenize word_tokenize text_data w
    = (Ok (s, n), w') /\
    (0 < nth i s 0
     <-> Forall (fun d => 0 < d) (sample_trials clock (ticks w) i)) /\
    (0 < nth i n 0
     <-> Forall (fun d => 0 < d)
           (sample_trials clock (ticks w + 6 * List.length text_data) i)).
Proof.
  intros Hi. eexists _, _, _. split; [apply timing_cells_run|].
  rewrite !nth_best by exact Hi.
  split; unfold sample_trials, best_of_three, range; simpl;
    (split;
     [ intros H; forall_three;
       revert H; unfold Rmin; repeat destruct (Rle_dec _ _); lra
     | intros H; inversion_clear H as [|? ? H0 H'];
       inversion_clear H' as [|? ? H1 H''];
       inversion_clear H'' as [|? ? H2 _];
       unfold Rmin; repeat destruct (Rle_dec _ _); lra ]).
Qed.

(** C9. Each recorded duration is one of the three trial durations of its
    sample; each cell returns one result per sample, so both result lists
    are as long as the corpus; and the samples are timed in corpus order:
    what happens is, text after text, three times a clock reading, the
    calls of the pipeline on that text, and a clock reading. *)
Theorem runner_one_result_per_sample (text_data : list string) (w : World) :
  exists s n w',
    timing_cells clock sent_tokenize word_tokenize text_data w
    = (Ok (s, n), w') /\
    List.length s = List.length text_data /\
    List.length n = List.length text_data /\
    (forall i, (i < List.length text_data)%nat ->
       In (nth i s 0) (sample_trials clock (ticks w) i) /\
       In (nth i n 0)
         (sample_trials clock (ticks w + 6 * List.length text_data) i)) /\
    trace w'
    = trace w
        ++ corpus_events clock nlp_calls (ticks w) 0 text_data
        ++ corpus_events clock (nltk_calls sent_tokenize word_tokenize)
             (ticks w + 6 * List.length text_data) 0 text_data.
Proof.
  eexists _, _, _. split; [apply timing_cells_run|].
  rewrite !length_map, !length_seq. repeat split.
  - rewrite nth_best by assumption.
    unfold sample_trials, best_of_three, range; simpl.
    unfold Rmin; repeat destruct (Rle_dec _ _); auto.
  - rewrite nth_best by assumption.
    unfold sample_trials, best_of_three, range; simpl.
    unfold Rmin; repeat destruct (Rle_dec _ _); auto.
Qed.

End RunnerFacts.

Section RunnerExamples.

Import Runner.

Local Open Scope string_scope.

(** A clock that advances by one second per reading, and tokenizers that
    split at nothing. *)
Lemma runner_records_minimum_witness :
  (0 < List.length ["Dracula"])%nat /\
  exists s n w',
    timing_cells INR (fun t => [t]) (fun t => [t]) ["Dracula"] fresh
    = (Ok (s, n), w') /\
    (least_of_three (nth 0 s 0) (sample_trials INR (ticks fresh) 0) /\
     Forall (fun d => nth 0 s 0 <= d) (sample_trials INR (ticks fresh) 0)) /\
    (least_of_three (nth 0 n 0)
       (sample_trials INR (ticks fresh + 6 * List.length ["Dracula"]) 0) /\
     Forall (fun d => nth 0 n 0 <= d)
       (sample_trials INR (ticks fresh + 6 * List.length ["Dracula"]) 0)).
Proof.
  split; [simpl; lia|].
  apply (runner_records_minimum INR (fun t => [t]) (fun t => [t])
           ["Dracula"] fresh 0).
  simpl; lia.
Defined.

(** C8 fails on the code: when the clock does not advance between the two
    readings of a trial (a text processed within one tick of the clock),
    the recorded duration is zero. *)
Lemma elapsed_zero_on_stalled_clock :
  exists s n w',
    timing_cells (fun _ => 1478000000) (fun t => [t]) (fun t => [t])
      ["Dracula"] fresh
    = (Ok (s, n), w') /\
    ~ Forall (fun elapsed_seconds => 0 < elapsed_seconds) s.
Proof.
  eexists _, _, _. split; [apply timing_cells_run|].
  simpl. intros H. inversion_clear H as [|? ? H0 _].
  revert H0. unfold best_of_three, trial_duration, Rmin.
  repeat destruct (Rle_dec _ _); lra.
Qed.

Lemma elapsed_positive_iff_witness :
  (0 < List.length ["Dracula"])%nat /\
  exists s n w',
    timing_cells INR (fun t => [t]) (fun t => [t]) ["Dracula"] fresh
    = (Ok (s, n), w') /\
    (0 < nth 0 s 0
     <-> Forall (fun d => 0 < d) (sample_trials INR (ticks fresh) 0)) /\
    (0 < nth 0 n 0
     <-> Forall (fun d => 0 < d)
           (sample_trials INR (ticks fresh + 6 * List.length ["Dracula"]) 0)).
Proof.
  split; [simpl; lia|].
  apply (elapsed_positive_iff INR (fun t => [t]) (fun t => [t])
           ["Dracula"] fresh 0).
  simpl; lia.
Defined.

Lemma runner_one_result_per_sample_witness :
  exists s n w',
    timing_cells INR (fun t => [t]) (fun t => [t]) ["Dracula"] fresh
    = (Ok (s, n), w') /\
    List.length s = 1%nat /\ List.length n = 1%nat /\
    In (nth 0 s 0) (sample_trials INR 0 0) /\
    In (nth 0 n 0) (sample_trials INR 6 0).
Proof.
  destruct (runner_one_result_per_sample INR (fun t => [t]) (fun t => [t])
              ["Dracula"] fresh)
    as (s & n & w' & Hrun & Hs & Hn & Hin & _).
  exists s, n, w'. split; [exact Hrun|]. split; [exact Hs|].
  split; [exact Hn|]. apply (Hin 0%nat). simpl. lia.
Defined.

End RunnerExamples.

(** * Properties of the regression cells and of the extrapolation *)

Section FitterFacts.

Import Fitter.

(** *** Logarithms *)

Lemma ln_10_pos : 0 < ln 10.
Proof. rewrite <- ln_1. apply ln_increasing; lra. Qed.

Lemma log10_mult (a b : R) : 0 < a -> 0 < b -> log10 (a * b) = log10 a + log10 b.
Proof.
  intros Ha Hb. unfold log10. rewrite ln_mult by assumption.
  pose proof ln_10_pos. field. lra.
Qed.

Lemma log10_inj (a b : R) : 0 < a -> 0 < b -> log10 a = log10 b -> a = b.
Proof.
  intros Ha Hb H. apply ln_inv; try assumption.
  unfold log10 in H. pose proof ln_10_pos as H10.
  apply (Rmult_eq_compat_r (ln 10)) in H.
  unfold Rdiv in H. rewrite !Rmult_assoc, Rinv_l, !Rmult_1_r in H by lra.
  exact H.
Qed.

Lemma math_log10_pos (x : R) : 0 < x -> math_log10 x = Ok (log10 x).
Proof. intros H. unfold math_log10. destruct (Rlt_dec 0 x); [reflexivity|lra]. Qed.

Lemma math_log10_nonpos (x : R) :
  x <= 0 -> math_log10 x = Raise (ValueError "math domain error").
Proof. intros H. unfold math_log10. destruct (Rlt_dec 0 x); [lra|reflexivity]. Qed.

(** *** List comprehensions *)

Lemma comprehension_ok {A B} (f : A -> outcome B) (g : A -> B) (xs : list A) :
  Forall (fun x => f x = Ok (g x)) xs ->
  comprehension f xs = Ok (map g xs).
Proof.
  induction 1 as [|x xs Hx _ IH]; simpl; [reflexivity|].
  rewrite Hx. simpl. rewrite IH. reflexivity.
Qed.

(** When every failure of [f] is the exception [e], a comprehension over a
    list with a failing element raises [e]. *)
Lemma comprehension_raises {A B} (f : A -> outcome B) (e : exn)
  (bad : A -> Prop) (xs : list A) :
  (forall x, bad x -> f x = Raise e) ->
  (forall x, ~ bad x -> exists y, f x = Ok y) ->
  (forall x, bad x \/ ~ bad x) ->
  Exists bad xs ->
  comprehension f xs = Raise e.
Proof.
  intros Hbad Hgood Hdec. induction 1 as [x xs Hx|x xs _ IH]; simpl.
  - rewrite (Hbad x Hx). reflexivity.
  - destruct (Hdec x) as [Hx|Hx].
    + rewrite (Hbad x Hx). reflexivity.
    + destruct (Hgood x Hx) as [y Hy]. rewrite Hy. simpl.
      rewrite IH. reflexivity.
Qed.

Lemma comprehension_ok_inv {A B} (f : A -> outcome B) (xs : list A) ys :
  comprehension f xs = Ok ys ->
  Forall (fun x => exists y, f x = Ok y) xs.
Proof.
  revert ys. induction xs as [|x xs IH]; intros ys H; [constructor|].
  simpl in H. destruct (f x) as [y|e] eqn:Hx; simpl in H; [|discriminate].
  destruct (comprehension f xs) as [ys'|e] eqn:Hxs; simpl in H;
    [|discriminate].
  constructor; [eauto|]. eapply IH. reflexivity.
Qed.

Lemma log_sizes_ok (n_chars : list Z) :
  Forall (fun n => (0 < n)%Z) n_chars ->
  log_sizes n_chars = Ok (logs_of n_chars).
Proof.
  intros H. apply (comprehension_ok _ (fun n => log10 (IZR n))).
  eapply Forall_impl; [|exact H]. intros n Hn. cbv beta.
  apply math_log10_pos, IZR_lt. exact Hn.
Qed.

Lemma log_times_ok (times : list R) :
  Forall (fun t => 0 < t) times ->
  log_times times = Ok (map log10 times).
Proof.
  intros H. apply comprehension_ok.
  eapply Forall_impl; [|exact H]. intros t Ht. apply math_log10_pos, Ht.
Qed.

Lemma log_sizes_raises (n_chars : list Z) :
  Exists (fun n => (n <= 0)%Z) n_chars ->
  log_sizes n_chars = Raise (ValueError "math domain error").
Proof.
  apply comprehension_raises.
  - intros n Hn. apply math_log10_nonpos, IZR_le. exact Hn.
  - intros n Hn. exists (log10 (IZR n)).
    apply math_log10_pos, IZR_lt. lia.
  - intros n. lia.
Qed.

Lemma log_times_raises (times : list R) :
  Exists (fun t => t <= 0) times ->
  log_times times = Raise (ValueError "math domain error").
Proof.
  apply comprehension_raises.
  - intros t Ht. apply math_log10_nonpos, Ht.
  - intros t Ht. exists (log10 t). apply math_log10_pos. lra.
  - intros t. lra.
Qed.

(** The logarithm cell either succeeds or raises the domain error. *)
Lemma log_sizes_cases (n_chars : list Z) :
  (exists l, log_sizes n_chars = Ok l) \/
  log_sizes n_chars = Raise (ValueError "math domain error").
Proof.
  destruct (Forall_Exists_dec (fun n => (0 < n)%Z)
              (fun n => Z_lt_dec 0 n) n_chars) as [H|H].
  - left. eexists. apply log_sizes_ok, H.
  - right. apply log_sizes_raises.
    eapply Exists_impl; [|exact H]. intros n Hn. cbv beta in Hn. lia.
Qed.

(** *** Sums, means and (co)variances *)

Lemma INR_length_cons {A} (a : A) (l : list A) : 0 < INR (List.length (a :: l)).
Proof. cbn [List.length]. rewrite S_INR. pose proof (pos_INR (List.length l)). lra. Qed.

Lemma sum_shift (c : R) (y : list R) :
  sum (map (fun v => c + v) y) = INR (List.length y) * c + sum y.
Proof.
  induction y as [|b y IH]; [simpl; lra|].
  cbn [map sum fold_right List.length]. fold (sum (map (fun v => c + v) y)).
  fold (sum y). rewrite IH, S_INR. lra.
Qed.

Lemma mean_shift (c : R) (y : list R) :
  y <> [] -> mean (map (fun v => c + v) y) = c + mean y.
Proof.
  intros Hy. destruct y as [|b y]; [congruence|].
  unfold mean. rewrite sum_shift, length_map.
  pose proof (INR_length_cons b y). field. lra.
Qed.

Lemma sum_dev_shift_r (mx my c : R) (x y : list R) :
  sum_dev mx (c + my) x (map (fun v => c + v) y) = sum_dev mx my x y.
Proof.
  revert y. induction x as [|a x IH]; intros [|b y]; simpl; try reflexivity.
  rewrite IH. lra.
Qed.

Lemma sum_dev_shift_both (my c : R) (y : list R) :
  sum_dev (c + my) (c + my) (map (fun v => c + v) y) (map (fun v => c + v) y)
  = sum_dev my my y y.
Proof.
  induction y as [|b y IH]; simpl; [reflexivity|]. rewrite IH. lra.
Qed.

Lemma sum_dev_sq_nonneg (m : R) (x : list R) : 0 <= sum_dev m m x x.
Proof.
  induction x as [|a x IH]; simpl; [lra|].
  pose proof (Rle_0_sqr (a - m)) as Hsq. unfold Rsqr in Hsq. lra.
Qed.

Lemma sum_dev_sq_zero (m : R) (x : list R) :
  sum_dev m m x x = 0 -> Forall (fun a => a = m) x.
Proof.
  induction x as [|a x IH]; intros H; [constructor|].
  simpl in H. pose proof (sum_dev_sq_nonneg m x).
  pose proof (Rle_0_sqr (a - m)) as Hsq. unfold Rsqr in Hsq.
  constructor; [|apply IH; lra].
  assert (Hz : (a - m) * (a - m) = 0) by lra.
  apply Rmult_integral in Hz. lra.
Qed.

(** The quadratic form behind the Cauchy-Schwarz inequality. *)
Lemma sum_dev_form (mx my s t : R) (x y : list R) :
  List.length x = List.length y ->
  0 <= sum_dev mx mx x x * (s * s) + 2 * sum_dev mx my x y * (s * t)
       + sum_dev my my y y * (t * t).
Proof.
  revert y. induction x as [|a x IH]; intros [|b y] H; simpl in *;
    try discriminate; [lra|].
  injection H as H. specialize (IH y H).
  pose proof (Rle_0_sqr ((a - mx) * s + (b - my) * t)) as Hsq.
  unfold Rsqr in Hsq. nra.
Qed.

Lemma sum_dev_cauchy_schwarz (mx my : R) (x y : list R) :
  List.length x = List.length y ->
  sum_dev mx my x y * sum_dev mx my x y
  <= sum_dev mx mx x x * sum_dev my my y y.
Proof.
  intros H.
  pose proof (sum_dev_sq_nonneg mx x) as HA.
  pose proof (sum_dev_sq_nonneg my y) as HB.
  set (A := sum_dev mx mx x x) in *. set (B := sum_dev my my y y) in *.
  set (C := sum_dev mx my x y).
  destruct (Req_dec_T A 0) as [HA0|HA0].
  - pose proof (sum_dev_form mx my (- (B + 1)) (2 * C) x y H) as Hq.
    fold A B C in Hq. rewrite HA0 in *. nra.
  - pose proof (sum_dev_form mx my C (- A) x y H) as Hq.
    fold A B C in Hq.
    assert (0 <= A * (A * B - C * C)) by nra.
    assert (0 < A) by lra. nra.
Qed.

Lemma cov_cauchy_schwarz (x y : list R) :
  List.length x = List.length y ->
  cov x y * cov x y <= cov x x * cov y y.
Proof.
  intros H. unfold cov. rewrite <- H.
  pose proof (sum_dev_cauchy_schwarz (mean x) (mean y) x y H) as Hcs.
  destruct x as [|a x].
  - simpl. lra.
  - pose proof (INR_length_cons a x) as Hn.
    set (n := INR (List.length (a :: x))) in *.
    replace (sum_dev (mean (a :: x)) (mean y) (a :: x) y / n
             * (sum_dev (mean (a :: x)) (mean y) (a :: x) y / n))
      with (sum_dev (mean (a :: x)) (mean y) (a :: x) y
            * sum_dev (mean (a :: x)) (mean y) (a :: x) y * (/ n * / n))
      by (field; lra).
    replace (sum_dev (mean (a :: x)) (mean (a :: x)) (a :: x) (a :: x) / n
             * (sum_dev (mean y) (mean y) y y / n))
      with (sum_dev (mean (a :: x)) (mean (a :: x)) (a :: x) (a :: x)
            * sum_dev (mean y) (mean y) y y * (/ n * / n))
      by (field; lra).
    apply Rmult_le_compat_r; [|exact Hcs].
    assert (0 < / n) by (apply Rinv_0_lt_compat; exact Hn). nra.
Qed.

Lemma cov_sq_nonneg (x : list R) : 0 <= cov x x.
Proof.
  unfold cov. destruct x as [|a x]; [simpl; lra|].
  pose proof (INR_length_cons a x).
  pose proof (sum_dev_sq_nonneg (mean (a :: x)) (a :: x)).
  apply Rmult_le_pos; [assumption|].
  left. apply Rinv_0_lt_compat. assumption.
Qed.

(** The divisor of the slope is zero only when the covariance it divides
    is zero, so the division is then the [0/0] that NumPy answers by
    [nan]. *)
Lemma ssxym_zero (x y : list R) :
  List.length x = List.length y -> cov x x = 0 -> cov x y = 0.
Proof.
  intros H H0. pose proof (cov_cauchy_schwarz x y H) as Hcs.
  rewrite H0 in Hcs. nra.
Qed.

(** In exact arithmetic the correlation lies in [[-1, 1]] by itself, and
    the clipping leaves it as it is. *)
Lemma clip_correlation (x y : list R) :
  List.length x = List.length y ->
  sqrt (cov x x * cov y y) <> 0 ->
  clip (cov x y / sqrt (cov x x * cov y y))
  = cov x y / sqrt (cov x x * cov y y).
Proof.
  intros H Hden.
  pose proof (cov_cauchy_schwarz x y H) as Hcs.
  pose proof (cov_sq_nonneg x) as HA. pose proof (cov_sq_nonneg y) as HB.
  assert (HAB : 0 <= cov x x * cov y y) by (apply Rmult_le_pos; assumption).
  pose proof (sqrt_sqrt _ HAB) as Hss.
  pose proof (sqrt_pos (cov x x * cov y y)) as Hs0.
  set (s := sqrt (cov x x * cov y y)) in *.
  assert (Hs : 0 < s) by lra.
  assert (Hlo : - s <= cov x y) by nra.
  assert (Hhi : cov x y <= s) by nra.
  assert (Hq1 : cov x y / s <= 1).
  { apply (Rmult_le_reg_r s); [exact Hs|].
    unfold Rdiv. rewrite Rmult_assoc, Rinv_l by lra. lra. }
  assert (Hq2 : -1 <= cov x y / s).
  { apply (Rmult_le_reg_r s); [exact Hs|].
    unfold Rdiv. rewrite Rmult_assoc, Rinv_l by lra. lra. }
  unfold clip. destruct (Rlt_dec 1 _); [lra|].
  destruct (Rlt_dec _ (-1)); [lra|reflexivity].
Qed.

Lemma clip_bounds (r : R) : -1 <= clip r <= 1.
Proof.
  unfold clip. destruct (Rlt_dec 1 r); [lra|].
  destruct (Rlt_dec r (-1)); lra.
Qed.

Lemma cov_shift_r (c : R) (x y : list R) :
  y <> [] -> cov x (map (fun v => c + v) y) = cov x y.
Proof.
  intros Hy. unfold cov. rewrite mean_shift by exact Hy.
  rewrite sum_dev_shift_r. reflexivity.
Qed.

Lemma cov_shift_both (c : R) (y : list R) :
  y <> [] -> cov (map (fun v => c + v) y) (map (fun v => c + v) y) = cov y y.
Proof.
  intros Hy. unfold cov. rewrite mean_shift by exact Hy.
  rewrite sum_dev_shift_both, length_map. reflexivity.
Qed.

Lemma cov_distinct (x : list R) :
  (exists a b, In a x /\ In b x /\ a <> b) -> cov x x <> 0.
Proof.
  intros (a & b & Ha & Hb & Hab) H0. unfold cov in H0.
  destruct x as [|a0 x]; [contradiction|].
  pose proof (INR_length_cons a0 x) as Hn.
  assert (Hs : sum_dev (mean (a0 :: x)) (mean (a0 :: x)) (a0 :: x) (a0 :: x) = 0).
  { apply (Rmult_eq_compat_r (INR (List.length (a0 :: x)))) in H0.
    unfold Rdiv in H0. rewrite Rmult_assoc, Rinv_l, Rmult_1_r, Rmult_0_l in H0
      by lra.
    exact H0. }
  apply sum_dev_sq_zero in Hs. rewrite Forall_forall in Hs.
  apply Hab. rewrite (Hs a Ha), (Hs b Hb). reflexivity.
Qed.

(** *** Running the fit *)

Lemma linregress_run (x y : list R) :
  x <> [] -> List.length x = List.length y ->
  linregress x y
  = Ok (mkLinregress
          (np_divide (cov x y) (cov x x))
          (fsub (Fin (mean y))
             (fmul (np_divide (cov x y) (cov x x)) (Fin (mean x))))
          (Fin (if Req_dec_T (sqrt (cov x x * cov y y)) 0 then 0
                else clip (cov x y / sqrt (cov x x * cov y y))))).
Proof.
  intros Hx Hlen. unfold linregress.
  destruct x as [|a x]; [congruence|].
  destruct y as [|c y]; [discriminate|].
  rewrite Hlen, Nat.eqb_refl. reflexivity.
Qed.

Lemma fitter_run (n_chars : list Z) (times : list R) :
  n_chars <> [] ->
  List.length n_chars = List.length times ->
  Forall (fun n => (0 < n)%Z) n_chars ->
  Forall (fun t => 0 < t) times ->
  let x := logs_of n_chars in
  let y := map log10 times in
  fitter n_chars times
  = Ok (mkFit
          (np_divide (cov x y) (cov x x))
          (fsub (Fin (mean y))
             (fmul (np_divide (cov x y) (cov x x)) (Fin (mean x))))
          (fsquare
             (Fin (if Req_dec_T (sqrt (cov x x * cov y y)) 0 then 0
                   else clip (cov x y / sqrt (cov x x * cov y y)))))).
Proof.
  intros Hne Hlen Hn Ht x y. unfold fitter.
  rewrite (log_sizes_ok _ Hn), (log_times_ok _ Ht). cbn [bind].
  unfold fit_cell. fold (logs_of n_chars). fold x y.
  rewrite linregress_run.
  - reflexivity.
  - subst x. unfold logs_of. destruct n_chars; [congruence|discriminate].
  - subst x y. unfold logs_of. rewrite !length_map. exact Hlen.
Qed.

Lemma two_distinct_nonempty (n_chars : list Z) :
  two_distinct n_chars -> n_chars <> [].
Proof. intros (a & b & Ha & _) ->. contradiction. Qed.

Lemma logs_distinct (n_chars : list Z) :
  Forall (fun n => (0 < n)%Z) n_chars ->
  two_distinct n_chars ->
  cov (logs_of n_chars) (logs_of n_chars) <> 0.
Proof.
  intros Hpos (a & b & Ha & Hb & Hab). apply cov_distinct.
  exists (log10 (IZR a)), (log10 (IZR b)).
  rewrite Forall_forall in Hpos.
  repeat split.
  - unfold logs_of. apply (in_map (fun n => log10 (IZR n))), Ha.
  - unfold logs_of. apply (in_map (fun n => log10 (IZR n))), Hb.
  - intros H. apply Hab, eq_IZR.
    apply log10_inj; [apply IZR_lt, Hpos, Ha|apply IZR_lt, Hpos, Hb|exact H].
Qed.

Lemma np_divide_fin (a b : R) : b <> 0 -> np_divide a b = Fin (a / b).
Proof. intros H. unfold np_divide. destruct (Req_dec_T b 0); [contradiction|reflexivity]. Qed.

(** The three regression cells succeed exactly when the fitter succeeds on
    each pipeline's durations, with the same two fits. *)
Lemma regression_cells_fits (n_chars : list Z) (spacy nltk : list R)
  (fit_spacy fit_nltk : FitResult) :
  regression_cells n_chars spacy nltk = Ok (fit_spacy, fit_nltk)
  <-> fitter n_chars spacy = Ok fit_spacy /\
      fitter n_chars nltk = Ok fit_nltk.
Proof.
  unfold regression_cells, fitter.
  destruct (log_sizes n_chars) as [lc|e]; cbn [bind];
    [|split; [discriminate|intros [H _]; discriminate]].
  destruct (log_times spacy) as [ls|e]; cbn [bind];
    [|split; [discriminate|intros [H _]; discriminate]].
  destruct (log_times nltk) as [ln|e]; cbn [bind];
    [|split; [discriminate|intros [_ H]; discriminate]].
  destruct (fit_cell lc ls) as [fs|e]; cbn [bind];
    [|split; [discriminate|intros [H _]; discriminate]].
  destruct (fit_cell lc ln) as [fn|e]; cbn [bind];
    [|split; [discriminate|intros [_ H]; discriminate]].
  split.
  - intros H. injection H as -> ->. split; reflexivity.
  - intros [H1 H2]. injection H1 as ->. injection H2 as ->. reflexivity.
Qed.

(** C2, as the code has it.  If any size or any duration given to the
    fitter is not positive, the fitter fails: [math.log10] raises
    [ValueError: math domain error] before the regression is reached, for a
    size in the first line of the logarithm cell, for a duration in the
    line of its pipeline. *)
Theorem fitter_rejects_non_positive (n_chars : list Z) (times : list R) :
  Exists (fun n => (n <= 0)%Z) n_chars \/ Exists (fun t => t <= 0) times ->
  fitter n_chars times = Raise (ValueError "math domain error").
Proof.
  intros [Hn|Ht]; unfold fitter.
  - rewrite (log_sizes_raises _ Hn). reflexivity.
  - destruct (log_sizes_cases n_chars) as [[l Hl]|Hl]; rewrite Hl; cbn [bind].
    + rewrite (log_times_raises _ Ht). reflexivity.
    + reflexivity.
Qed.

(** C3. On parallel lists of positive sizes and positive durations with two
    distinct sizes, the fitter returns, and its [r_squared] is a number
    between 0 and 1. *)
Theorem r_squared_in_unit_interval (n_chars : list Z) (times : list R) :
  valid_input n_chars times ->
  exists m b r2,
    fitter n_chars times = Ok (mkFit m b (Fin r2)) /\ 0 <= r2 <= 1.
Proof.
  intros (Hlen & Hn & Ht & Hd).
  rewrite (fitter_run _ _ (two_distinct_nonempty _ Hd) Hlen Hn Ht).
  cbn [fsquare fmul]. eexists _, _, _. split; [reflexivity|].
  destruct (Req_dec_T _ 0) as [_|_]; [lra|].
  match goal with |- context [clip ?r] => pose proof (clip_bounds r) end.
  nra.
Qed.

(** C4. On a valid input, multiplying every duration by a constant [k > 0]
    leaves the slope and [r_squared] of the fit as they are and adds
    [log10 k] to the intercept. *)
Theorem fitter_scale_invariance (n_chars : list Z) (times : list R) (k : R) :
  valid_input n_chars times ->
  0 < k ->
  exists m b r2,
    fitter n_chars times = Ok (mkFit (Fin m) (Fin b) (Fin r2)) /\
    fitter n_chars (map (fun t => k * t) times)
    = Ok (mkFit (Fin m) (Fin (b + log10 k)) (Fin r2)).
Proof.
  intros (Hlen & Hn & Ht & Hd) Hk.
  pose proof (two_distinct_nonempty _ Hd) as Hne.
  assert (Ht' : Forall (fun t => 0 < t) (map (fun t => k * t) times)).
  { rewrite Forall_map. eapply Forall_impl; [|exact Ht].
    intros t H. cbv beta. apply Rmult_lt_0_compat; assumption. }
  assert (Hlen' : List.length n_chars
                  = List.length (map (fun t => k * t) times))
    by (rewrite length_map; exact Hlen).
  assert (Hy : times <> []).
  { intros ->. destruct n_chars; [congruence|discriminate]. }
  assert (Hly : map log10 times <> []).
  { destruct times; [congruence|discriminate]. }
  assert (Hlog : map log10 (map (fun t => k * t) times)
                 = map (fun v => log10 k + v) (map log10 times)).
  { rewrite !map_map. apply map_ext_in. intros t Hin.
    rewrite Forall_forall in Ht. apply log10_mult; [exact Hk|apply Ht, Hin]. }
  rewrite (fitter_run _ _ Hne Hlen Hn Ht).
  rewrite (fitter_run _ _ Hne Hlen' Hn Ht').
  cbv zeta. rewrite Hlog.
  rewrite cov_shift_r, cov_shift_both, mean_shift by exact Hly.
  rewrite np_divide_fin by (apply logs_distinct; assumption).
  cbn [fsquare fmul fsub].
  eexists _, _, _. split; [reflexivity|].
  f_equal. f_equal. f_equal. lra.
Qed.

(** *** The range of a double *)

Lemma pow_2_Z (n : nat) : 2 ^ n = IZR (2 ^ Z.of_nat n).
Proof. apply pow_IZR. Qed.

Lemma pow_10_Z (n : nat) : 10 ^ n = IZR (10 ^ Z.of_nat n).
Proof. apply pow_IZR. Qed.

Lemma float_overflow_Z : float_overflow = IZR (2 ^ 1024 - 2 ^ 970).
Proof. unfold float_overflow. rewrite !pow_2_Z, <- minus_IZR. reflexivity. Qed.

Lemma pow_10_308_lt_overflow : 10 ^ 308 < float_overflow.
Proof.
  rewrite float_overflow_Z, pow_10_Z. apply IZR_lt.
  vm_compute. reflexivity.
Qed.

Lemma overflow_le_pow_10_309 : float_overflow <= 10 ^ 309.
Proof.
  rewrite float_overflow_Z, pow_10_Z. apply IZR_le.
  vm_compute. discriminate.
Qed.

Lemma pow_2_pos (n : nat) : 0 < 2 ^ n.
Proof. apply pow_lt. lra. Qed.

Lemma pow_10_pos (n : nat) : 0 < 10 ^ n.
Proof. apply pow_lt. lra. Qed.

Lemma underflow_lt_pow_10_m307 : float_underflow < / 10 ^ 307.
Proof.
  unfold float_underflow. apply Rinv_0_lt_contravar; [apply pow_10_pos|].
  rewrite pow_2_Z, pow_10_Z. apply IZR_lt. vm_compute. reflexivity.
Qed.

Lemma pow_10_m324_le_underflow : / 10 ^ 324 <= float_underflow.
Proof.
  unfold float_underflow. apply Rinv_le_contravar; [apply pow_2_pos|].
  rewrite pow_2_Z, pow_10_Z. apply IZR_le. vm_compute. discriminate.
Qed.

Lemma float_underflow_pos : 0 < float_underflow.
Proof. unfold float_underflow. apply Rinv_0_lt_compat, pow_2_pos. Qed.

Lemma float_overflow_pos : 0 < float_overflow.
Proof. pose proof pow_10_308_lt_overflow. pose proof (pow_10_pos 308). lra. Qed.

Lemma float64_in_range (v : R) : in_range v -> float64 v = Fin v.
Proof.
  pose proof float_underflow_pos. pose proof float_overflow_pos.
  intros [->|[Hlo Hhi]]; unfold float64.
  - rewrite Rabs_R0. destruct (Rle_dec float_overflow 0); [lra|].
    destruct (Rle_dec 0 float_underflow); [reflexivity|lra].
  - destruct (Rle_dec float_overflow (Rabs v)); [lra|].
    destruct (Rle_dec (Rabs v) float_underflow); [lra|reflexivity].
Qed.

Lemma Rpower_10_nat (n : nat) : Rpower 10 (INR n) = 10 ^ n.
Proof. apply Rpower_pow. lra. Qed.

Lemma Rpower_10_pos (e : R) : 0 < Rpower 10 e.
Proof. apply exp_pos. Qed.

(** Powers of ten with an exponent from [-307] to [308] are within the
    range; from [309] on they overflow, up to [-324] they underflow. *)
Lemma Rpower_10_in_range (e : R) :
  -307 <= e <= 308 -> in_range (Rpower 10 e).
Proof.
  intros [Hlo Hhi]. right.
  rewrite (Rabs_right _ (Rle_ge _ _ (Rlt_le _ _ (Rpower_10_pos e)))).
  split.
  - apply (Rlt_le_trans _ (/ 10 ^ 307)); [apply underflow_lt_pow_10_m307|].
    rewrite <- Rpower_10_nat, <- Rpower_Ropp.
    apply Rle_Rpower; [lra|].
    rewrite INR_IZR_INZ. change (Z.of_nat 307) with 307%Z. exact Hlo.
  - apply (Rle_lt_trans _ (10 ^ 308)); [|apply pow_10_308_lt_overflow].
    rewrite <- Rpower_10_nat. apply Rle_Rpower; [lra|].
    rewrite INR_IZR_INZ. change (Z.of_nat 308) with 308%Z. exact Hhi.
Qed.

Lemma fpow10_overflow (e : R) : 309 <= e -> fpow10 (Fin e) = Inf false.
Proof.
  intros He. cbn [fpow10]. unfold float64.
  pose proof (Rpower_10_pos e) as Hpos.
  rewrite (Rabs_right _ (Rle_ge _ _ (Rlt_le _ _ Hpos))).
  assert (Hbig : float_overflow <= Rpower 10 e).
  { apply (Rle_trans _ (10 ^ 309)); [apply overflow_le_pow_10_309|].
    rewrite <- Rpower_10_nat. apply Rle_Rpower; [lra|].
    rewrite INR_IZR_INZ. change (Z.of_nat 309) with 309%Z. exact He. }
  destruct (Rle_dec float_overflow (Rpower 10 e)); [|contradiction].
  unfold is_negative. destruct (Rlt_dec (Rpower 10 e) 0); [lra|reflexivity].
Qed.

Lemma fpow10_underflow (e : R) : e <= -324 -> fpow10 (Fin e) = Fin 0.
Proof.
  intros He. cbn [fpow10]. unfold float64.
  pose proof (Rpower_10_pos e) as Hpos.
  rewrite (Rabs_right _ (Rle_ge _ _ (Rlt_le _ _ Hpos))).
  assert (Hsmall : Rpower 10 e <= float_underflow).
  { apply (Rle_trans _ (/ 10 ^ 324)); [|apply pow_10_m324_le_underflow].
    rewrite <- Rpower_10_nat, <- Rpower_Ropp. apply Rle_Rpower; [lra|].
    rewrite INR_IZR_INZ. change (Z.of_nat 324) with 324%Z. exact He. }
  assert (Hlt : Rpower 10 e < float_overflow).
  { pose proof pow_10_308_lt_overflow. pose proof float_underflow_pos.
    apply (Rle_lt_trans _ float_underflow); [exact Hsmall|].
    apply (Rlt_trans _ (/ 10 ^ 307)); [apply underflow_lt_pow_10_m307|].
    apply (Rle_lt_trans _ 1); [|pose proof (pow_R1_Rle 10 308); lra].
    rewrite <- Rinv_1. apply Rinv_le_contravar; [lra|].
    apply pow_R1_Rle. lra. }
  destruct (Rle_dec float_overflow (Rpower 10 e)); [lra|].
  destruct (Rle_dec (Rpower 10 e) float_underflow); [reflexivity|contradiction].
Qed.

Lemma reg_spacy_in_range (m b x : R) :
  0 < x ->
  in_range (m * log10 x) -> in_range (Rpower 10 b) ->
  in_range (Rpower x m) -> in_range (power_law m b x) ->
  reg_spacy (Fin m) (Fin b) x = Ok (Fin (power_law m b x)).
Proof.
  intros Hx He Hb Hp Hv. unfold reg_spacy, power_law in *.
  rewrite (math_log10_pos _ Hx). cbn [bind np_multiply fpow10].
  assert (H : Rpower 10 (m * log10 x) = Rpower x m).
  { unfold Rpower, log10. f_equal. pose proof ln_10_pos. field. lra. }
  rewrite (float64_in_range _ He). cbn [fpow10]. rewrite H.
  rewrite (float64_in_range _ Hb), (float64_in_range _ Hp).
  cbn [np_multiply]. rewrite (float64_in_range _ Hv). reflexivity.
Qed.

Lemma reg_nltk_in_range (m b x : R) :
  0 < x ->
  in_range (m * log10 x) -> in_range (Rpower 10 b) ->
  in_range (Rpower x m) -> in_range (power_law m b x) ->
  reg_nltk (Fin m) (Fin b) x = Ok (Fin (power_law m b x)).
Proof.
  intros Hx He Hb Hp Hv. unfold reg_nltk, power_law in *.
  rewrite (math_log10_pos _ Hx). cbn [bind np_multiply fpow10].
  assert (H : Rpower 10 (m * log10 x) = Rpower x m).
  { unfold Rpower, log10. f_equal. pose proof ln_10_pos. field. lra. }
  rewrite (float64_in_range _ He). cbn [fpow10]. rewrite H.
  rewrite (float64_in_range _ Hb), (float64_in_range _ Hp).
  cbn [np_multiply]. rewrite (float64_in_range _ Hv). reflexivity.
Qed.

(** C5, as the code has it.  For a fit with real slope [m] and intercept
    [b] and a positive size [x], both extrapolation functions return the
    power law [10^b * x^m], rounding aside, provided the exponent
    [m * log10 x], the two powers of ten and their product stay within
    the range of a double.  (Beyond it a factor becomes zero or an
    infinity, and the result zero, an infinity or [nan].) *)
Theorem reg_is_power_law (m b x : R) :
  0 < x ->
  in_range (m * log10 x) ->
  in_range (Rpower 10 b) ->
  in_range (Rpower x m) ->
  in_range (power_law m b x) ->
  reg_spacy (Fin m) (Fin b) x = Ok (Fin (power_law m b x)) /\
  reg_nltk (Fin m) (Fin b) x = Ok (Fin (power_law m b x)).
Proof.
  intros Hx He Hb Hp Hv. split.
  - apply reg_spacy_in_range; assumption.
  - apply reg_nltk_in_range; assumption.
Qed.

(** C10. The extrapolation functions fail on every size that is not
    positive, whatever the fit, and the lists computed for the plot exist
    exactly when every size is positive: no error is reached if and only if
    all sizes are positive. *)
Theorem reg_defined_iff_positive (m b : pyfloat) :
  (forall x, x <= 0 ->
     reg_spacy m b x = Raise (ValueError "math domain error") /\
     reg_nltk m b x = Raise (ValueError "math domain error")) /\
  (forall sizes : list Z,
     ((exists ys, plot_spacy m b sizes = Ok ys)
      <-> Forall (fun x => (0 < x)%Z) sizes) /\
     ((exists ys, plot_nltk m b sizes = Ok ys)
      <-> Forall (fun x => (0 < x)%Z) sizes)).
Proof.
  split.
  - intros x Hx. unfold reg_spacy, reg_nltk.
    rewrite (math_log10_nonpos _ Hx). split; reflexivity.
  - intros sizes. split; split.
    + intros [ys H]. apply comprehension_ok_inv in H.
      eapply Forall_impl; [|exact H]. intros x [y Hy]. cbv beta in Hy.
      destruct (Z_lt_dec 0 x) as [|Hn]; [assumption|].
      unfold reg_spacy in Hy.
      rewrite math_log10_nonpos in Hy by (apply IZR_le; lia). discriminate.
    + intros H. eexists. unfold plot_spacy.
      apply (comprehension_ok _
               (fun x => np_multiply (fpow10 b)
                           (fpow10 (np_multiply m (Fin (log10 (IZR x))))))).
      eapply Forall_impl; [|exact H]. intros x Hx. cbv beta.
      unfold reg_spacy. rewrite math_log10_pos by (apply IZR_lt; exact Hx).
      reflexivity.
    + intros [ys H]. apply comprehension_ok_inv in H.
      eapply Forall_impl; [|exact H]. intros x [y Hy]. cbv beta in Hy.
      destruct (Z_lt_dec 0 x) as [|Hn]; [assumption|].
      unfold reg_nltk in Hy.
      rewrite math_log10_nonpos in Hy by (apply IZR_le; lia). discriminate.
    + intros H. eexists. unfold plot_nltk.
      apply (comprehension_ok _
               (fun x => np_multiply (fpow10 b)
                           (fpow10 (np_multiply m (Fin (log10 (IZR x))))))).
      eapply Forall_impl; [|exact H]. intros x Hx. cbv beta.
      unfold reg_nltk. rewrite math_log10_pos by (apply IZR_lt; exact Hx).
      reflexivity.
Qed.

End FitterFacts.

Section FitterExamples.

Import Fitter.

Lemma log10_3_nonzero : log10 3 <> 0.
Proof.
  unfold log10. pose proof ln_10_pos as H10.
  assert (H3 : 0 < ln 3) by (rewrite <- ln_1; apply ln_increasing; lra).
  assert (0 < ln 3 / ln 10) by (apply Rdiv_lt_0_compat; assumption).
  lra.
Qed.

(** C6. On the sizes [50, 150, 450] and the durations [0.01, 0.03, 0.09]
    the fit is the exact line: slope 1 and [r_squared] 1 (and the intercept
    [log10 0.01 - log10 50]). *)
Theorem fitter_on_exact_line :
  fitter [50; 150; 450]%Z [0.01; 0.03; 0.09]
  = Ok (mkFit (Fin 1) (Fin (log10 0.01 - log10 50)) (Fin 1)).
Proof.
  rewrite fitter_run;
    [ | discriminate | reflexivity
      | repeat (apply Forall_cons; [lia|]); apply Forall_nil
      | repeat (apply Forall_cons; [lra|]); apply Forall_nil ].
  cbv zeta. unfold logs_of. cbn [map].
  replace (log10 150) with (log10 50 + log10 3)
    by (rewrite <- log10_mult by lra; f_equal; lra).
  replace (log10 450) with (log10 50 + 2 * log10 3)
    by (replace 450 with (50 * 3 * 3) by lra;
        rewrite !log10_mult by lra; lra).
  replace (log10 0.03) with (log10 0.01 + log10 3)
    by (rewrite <- log10_mult by lra; f_equal; lra).
  replace (log10 0.09) with (log10 0.01 + 2 * log10 3)
    by (replace 0.09 with (0.01 * 3 * 3) by lra;
        rewrite !log10_mult by lra; lra).
  pose proof log10_3_nonzero as Hd.
  set (a := log10 50) in *. set (b := log10 0.01) in *.
  set (d := log10 3) in *.
  assert (Hmx : mean [a; a + d; a + 2 * d] = a + d)
    by (unfold mean, sum; simpl; field).
  assert (Hmy : mean [b; b + d; b + 2 * d] = b + d)
    by (unfold mean, sum; simpl; field).
  assert (Hxx : cov [a; a + d; a + 2 * d] [a; a + d; a + 2 * d]
                = 2 * (d * d) / 3)
    by (unfold cov; rewrite Hmx; simpl; field).
  assert (Hxy : cov [a; a + d; a + 2 * d] [b; b + d; b + 2 * d]
                = 2 * (d * d) / 3)
    by (unfold cov; rewrite Hmx, Hmy; simpl; field).
  assert (Hyy : cov [b; b + d; b + 2 * d] [b; b + d; b + 2 * d]
                = 2 * (d * d) / 3)
    by (unfold cov; rewrite Hmy; simpl; field).
  rewrite Hxx, Hxy, Hyy, Hmx, Hmy.
  assert (Hpos : 0 < 2 * (d * d) / 3).
  { assert (0 < d * d) by nra. lra. }
  rewrite sqrt_square by lra.
  rewrite np_divide_fin by lra.
  destruct (Req_dec_T _ 0) as [H0|_]; [lra|].
  replace (2 * (d * d) / 3 / (2 * (d * d) / 3)) with 1 by (field; lra).
  unfold clip. destruct (Rlt_dec 1 1); [lra|].
  destruct (Rlt_dec 1 (-1)); [lra|].
  cbn [fsquare fmul fsub]. f_equal. f_equal; f_equal; lra.
Qed.

(** C2 fails on the code for its last case: nothing in the notebook counts
    the distinct sizes.  With a single sample the logarithms are taken, the
    regression is called and returns: a correlation of zero and, from the
    division of a zero covariance by a zero variance, [nan] for the slope
    and the intercept. *)
Lemma fitter_accepts_single_size :
  ~ two_distinct [50%Z] /\
  Forall (fun n => (0 < n)%Z) [50%Z] /\
  Forall (fun t => 0 < t) [0.01] /\
  fitter [50%Z] [0.01] = Ok (mkFit NaN NaN (Fin 0)) /\
  forall e, fitter [50%Z] [0.01] <> Raise e.
Proof.
  assert (Hrun : fitter [50%Z] [0.01] = Ok (mkFit NaN NaN (Fin 0))).
  { rewrite fitter_run;
      [ | discriminate | reflexivity
        | apply Forall_cons; [lia|apply Forall_nil]
        | apply Forall_cons; [lra|apply Forall_nil] ].
    cbv zeta. unfold logs_of. cbn [map].
    set (a := log10 50). set (b := log10 0.01).
    assert (Hxx : cov [a] [a] = 0)
      by (unfold cov, mean, sum; simpl; field).
    assert (Hxy : cov [a] [b] = 0)
      by (unfold cov, mean, sum; simpl; field).
    assert (Hyy : cov [b] [b] = 0)
      by (unfold cov, mean, sum; simpl; field).
    rewrite Hxx, Hxy, Hyy, Rmult_0_l, sqrt_0.
    unfold np_divide. destruct (Req_dec_T 0 0) as [_|H]; [|contradiction].
    cbn [fsquare fmul fsub]. rewrite Rmult_0_l. reflexivity. }
  repeat split.
  - intros (x & y & [Hx|[]] & [Hy|[]] & Hxy). congruence.
  - apply Forall_cons; [lia|apply Forall_nil].
  - apply Forall_cons; [lra|apply Forall_nil].
  - exact Hrun.
  - intros e. rewrite Hrun. discriminate.
Qed.

(** The scenario of a zero duration. *)
Lemma fitter_rejects_non_positive_witness :
  (Exists (fun n => (n <= 0)%Z) [50; 150]%Z \/
   Exists (fun t => t <= 0) [0.01; 0]) /\
  fitter [50; 150]%Z [0.01; 0] = Raise (ValueError "math domain error").
Proof.
  assert (H : Exists (fun n => (n <= 0)%Z) [50; 150]%Z \/
              Exists (fun t => t <= 0) [0.01; 0]).
  { right. apply Exists_cons_tl, Exists_cons_hd. lra. }
  split; [exact H|].
  apply (fitter_rejects_non_positive [50; 150]%Z [0.01; 0] H).
Defined.

Lemma valid_two_samples : valid_input [50; 150]%Z [0.01; 0.03].
Proof.
  unfold valid_input. split; [reflexivity|]. split; [|split].
  - apply Forall_cons; [lia|]. apply Forall_cons; [lia|]. apply Forall_nil.
  - apply Forall_cons; [lra|]. apply Forall_cons; [lra|]. apply Forall_nil.
  - exists 50%Z, 150%Z. split; [left; reflexivity|].
    split; [right; left; reflexivity|discriminate].
Defined.

Lemma r_squared_in_unit_interval_witness :
  valid_input [50; 150]%Z [0.01; 0.03] /\
  exists m b r2,
    fitter [50; 150]%Z [0.01; 0.03] = Ok (mkFit m b (Fin r2)) /\
    0 <= r2 <= 1.
Proof.
  split; [exact valid_two_samples|].
  apply (r_squared_in_unit_interval [50; 150]%Z [0.01; 0.03]).
  exact valid_two_samples.
Defined.

(** Seconds to milliseconds. *)
Lemma fitter_scale_invariance_witness :
  valid_input [50; 150]%Z [0.01; 0.03] /\ 0 < 1000 /\
  exists m b r2,
    fitter [50; 150]%Z [0.01; 0.03] = Ok (mkFit (Fin m) (Fin b) (Fin r2)) /\
    fitter [50; 150]%Z (map (fun t => 1000 * t) [0.01; 0.03])
    = Ok (mkFit (Fin m) (Fin (b + log10 1000)) (Fin r2)).
Proof.
  split; [exact valid_two_samples|]. split; [lra|].
  apply (fitter_scale_invariance [50; 150]%Z [0.01; 0.03] 1000).
  - exact valid_two_samples.
  - lra.
Defined.

Lemma log10_10 : log10 10 = 1.
Proof. unfold log10. pose proof ln_10_pos. field. lra. Qed.

Lemma in_range_1 : in_range 1.
Proof.
  rewrite <- (Rpower_O 10) by lra. apply Rpower_10_in_range. lra.
Qed.

Lemma reg_is_power_law_witness :
  0 < 10 /\ in_range (1 * log10 10) /\ in_range (Rpower 10 (-5)) /\
  in_range (Rpower 10 1) /\ in_range (power_law 1 (-5) 10) /\
  reg_spacy (Fin 1) (Fin (-5)) 10 = Ok (Fin (power_law 1 (-5) 10)) /\
  reg_nltk (Fin 1) (Fin (-5)) 10 = Ok (Fin (power_law 1 (-5) 10)).
Proof.
  assert (Hx : 0 < 10) by lra.
  assert (He : in_range (1 * log10 10)).
  { rewrite log10_10, Rmult_1_l. exact in_range_1. }
  assert (Hb : in_range (Rpower 10 (-5))).
  { apply Rpower_10_in_range. lra. }
  assert (Hp : in_range (Rpower 10 1)).
  { apply Rpower_10_in_range. lra. }
  assert (Hv : in_range (power_law 1 (-5) 10)).
  { unfold power_law. rewrite <- Rpower_plus.
    apply Rpower_10_in_range. lra. }
  split; [exact Hx|]. split; [exact He|]. split; [exact Hb|].
  split; [exact Hp|]. split; [exact Hv|].
  apply (reg_is_power_law 1 (-5) 10 Hx He Hb Hp Hv).
Defined.

Lemma reg_defined_iff_positive_witness :
  0 <= 0 /\
  reg_spacy (Fin 1) (Fin (-5)) 0 = Raise (ValueError "math domain error") /\
  reg_nltk (Fin 1) (Fin (-5)) 0 = Raise (ValueError "math domain error").
Proof.
  split; [lra|].
  apply (proj1 (reg_defined_iff_positive (Fin 1) (Fin (-5))) 0). lra.
Defined.

(** The sizes the notebook computes are lengths: a size fails to be
    positive exactly when its text is empty, and a corpus with an empty
    text makes the fitter raise. *)
Lemma n_chars_positive (text_data : list string) :
  Forall (fun n => (0 < n)%Z) (n_chars text_data)
  <-> Forall (fun text => text <> EmptyString) text_data.
Proof.
  unfold n_chars. rewrite Forall_map.
  split; intros H; (eapply Forall_impl; [|exact H]); intros text Ht;
    cbv beta in *.
  - intros ->. simpl in Ht. lia.
  - destruct text; [congruence|]. simpl. lia.
Qed.

Lemma fitter_rejects_empty_text (text_data : list string) (times : list R) :
  In EmptyString text_data ->
  fitter (n_chars text_data) times = Raise (ValueError "math domain error").
Proof.
  intros H. unfold fitter. rewrite log_sizes_raises; [reflexivity|].
  apply Exists_exists. exists 0%Z. split; [|lia].
  unfold n_chars.
  apply (in_map (fun text => Z.of_nat (String.length text)) _ _ H).
Qed.

End FitterExamples.

(** * Further properties of the timing cells *)

Section RunnerTrace.

Import Runner Notebook.

Variable clock : nat -> R.
Variable sent_tokenize : string -> list string.
Variable word_tokenize : string -> list string.

Lemma calls_of_app (a b : list event) :
  calls_of (a ++ b) = calls_of a ++ calls_of b.
Proof.
  induction a as [|[t|c] a IH]; simpl; [reflexivity|exact IH|].
  rewrite IH. reflexivity.
Qed.


Lemma calls_of_invoked (cs : list call) : calls_of (map Invoked cs) = cs.
Proof. induction cs as [|c cs IH]; simpl; [reflexivity|]. rewrite IH. reflexivity. Qed.


Lemma calls_of_trial (calls : string -> list call) text t0 j :
  calls_of (trial_events clock calls text t0 j) = calls text.
Proof.
  unfold trial_events. simpl. rewrite calls_of_app, calls_of_invoked.
  simpl. apply app_nil_r.
Qed.


Lemma calls_of_corpus (calls : string -> list call) t0 text_data :
  forall i,
    calls_of (corpus_events clock calls t0 i text_data)
    = flat_map (fun text => calls text ++ calls text ++ calls text) text_data.
Proof.
  induction text_data as [|text rest IH]; intros i; [reflexivity|].
  cbn [corpus_events flat_map]. rewrite calls_of_app, IH.
  unfold sample_events, range. cbn [seq flat_map].
  rewrite !calls_of_app, !calls_of_trial. cbn [calls_of].
  rewrite app_nil_r, <- !app_assoc. reflexivity.
Qed.


(** The spaCy cell calls [nlp] on every text exactly three times, in
    corpus order, and calls nothing else. *)
Theorem spacy_cell_calls (text_data : list string) (w : World) :
  exists s w',
    spacy clock text_data w = (Ok s, w') /\
    calls_of (trace w')
    = calls_of (trace w)
        ++ flat_map (fun text => [Nlp text; Nlp text; Nlp text]) text_data.
Proof.
  eexists _, _. split.
  - unfold spacy. apply (timed_runner_run clock nlp nlp_calls nlp_performs).
  - cbn [trace]. rewrite calls_of_app, calls_of_corpus. reflexivity.
Qed.

(** The NLTK cell runs, three times per text and in corpus order, one
    [sent_tokenize] of the text, then one [word_tokenize] per sentence,
    and only then, sentence by sentence, [pos_tag] followed by [ne_chunk]
    on the tokens of the sentence. *)
Theorem nltk_cell_calls (text_data : list string) (w : World) :
  exists n w',
    nltk clock sent_tokenize word_tokenize text_data w = (Ok n, w') /\
    calls_of (trace w')
    = calls_of (trace w)
        ++ flat_map
             (fun text =>
                let once :=
                  SentTokenize text
                    :: map WordTokenize (sent_tokenize text)
                    ++ flat_map
                         (fun sent => [PosTag (word_tokenize sent);
                                       NeChunk (word_tokenize sent)])
                         (sent_tokenize text) in
                once ++ once ++ once)
             text_data.
Proof.
  eexists _, _. split.
  - unfold nltk.
    apply (timed_runner_run clock _ _
             (nltk_performs sent_tokenize word_tokenize)).
  - cbn [trace]. rewrite calls_of_app, calls_of_corpus. reflexivity.
Qed.


(** With a clock that every reading finds later than the reading before,
    every duration the two cells record is positive. *)
Theorem elapsed_positive_on_advancing_clock (text_data : list string)
  (w : World) :
  (forall k, clock k < clock (S k)) ->
  exists s n w',
    timing_cells clock sent_tokenize word_tokenize text_data w
    = (Ok (s, n), w') /\
    Forall (fun elapsed_seconds => 0 < elapsed_seconds) s /\
    Forall (fun elapsed_seconds => 0 < elapsed_seconds) n.
Proof.
  intros Hclock. eexists _, _, _. split; [apply timing_cells_run|].
  assert (Hbest : forall t0 i, 0 < best_of_three clock t0 i).
  { intros t0 i. unfold best_of_three, trial_duration.
    assert (Hd : forall k, 0 < clock (k + 1) - clock k).
    { intros k. replace (k + 1)%nat with (S k) by lia.
      specialize (Hclock k). lra. }
    pose proof (Hd (t0 + 6 * i + 2 * 0)%nat).
    pose proof (Hd (t0 + 6 * i + 2 * 1)%nat).
    pose proof (Hd (t0 + 6 * i + 2 * 2)%nat).
    unfold Rmin. repeat destruct (Rle_dec _ _); assumption. }
  split; apply Forall_map, Forall_forall; intros i _; apply Hbest.
Qed.

End RunnerTrace.

Section RunnerTraceExamples.

Import Runner Notebook.

Local Open Scope string_scope.

Lemma elapsed_positive_on_advancing_clock_witness :
  (forall k, INR k < INR (S k)) /\
  exists s n w',
    timing_cells INR (fun t => [t]) (fun t => [t]) ["Dracula"] fresh
    = (Ok (s, n), w') /\
    Forall (fun elapsed_seconds => 0 < elapsed_seconds) s /\
    Forall (fun elapsed_seconds => 0 < elapsed_seconds) n.
Proof.
  assert (H : forall k, INR k < INR (S k)).
  { intros k. rewrite S_INR. lra. }
  split; [exact H|].
  apply (elapsed_positive_on_advancing_clock INR (fun t => [t])
           (fun t => [t]) ["Dracula"] fresh H).
Defined.

End RunnerTraceExamples.

(** * Further properties of the regression cells *)

Section FitterData.

Import Fitter Notebook.

(** *** Durations that lie on a line in log-log space *)

Lemma sum_affine (c p : R) (x : list R) :
  sum (map (fun v => c + p * v) x) = INR (List.length x) * c + p * sum x.
Proof.
  induction x as [|a x IH]; [simpl; lra|].
  cbn [map sum fold_right List.length].
  fold (sum (map (fun v => c + p * v) x)). fold (sum x).
  rewrite IH, S_INR. lra.
Qed.

Lemma mean_affine (c p : R) (x : list R) :
  x <> [] -> mean (map (fun v => c + p * v) x) = c + p * mean x.
Proof.
  intros Hx. destruct x as [|a x]; [congruence|].
  unfold mean. rewrite sum_affine, length_map.
  pose proof (INR_length_cons a x). field. lra.
Qed.

Lemma sum_dev_affine_r (mx c p : R) (x : list R) :
  sum_dev mx (c + p * mx) x (map (fun v => c + p * v) x)
  = p * sum_dev mx mx x x.
Proof. induction x as [|a x IH]; simpl; [lra|]. rewrite IH. lra. Qed.

Lemma sum_dev_affine_both (mx c p : R) (x : list R) :
  sum_dev (c + p * mx) (c + p * mx)
    (map (fun v => c + p * v) x) (map (fun v => c + p * v) x)
  = p * p * sum_dev mx mx x x.
Proof. induction x as [|a x IH]; simpl; [lra|]. rewrite IH. lra. Qed.

Lemma cov_affine_r (c p : R) (x : list R) :
  x <> [] -> cov x (map (fun v => c + p * v) x) = p * cov x x.
Proof.
  intros Hx. unfold cov. rewrite mean_affine by exact Hx.
  rewrite sum_dev_affine_r. unfold Rdiv. ring.
Qed.

Lemma cov_affine_both (c p : R) (x : list R) :
  x <> [] ->
  cov (map (fun v => c + p * v) x) (map (fun v => c + p * v) x)
  = p * p * cov x x.
Proof.
  intros Hx. unfold cov. rewrite mean_affine by exact Hx.
  rewrite sum_dev_affine_both, length_map. unfold Rdiv. ring.
Qed.

Lemma log10_Rpower (x p : R) : log10 (Rpower x p) = p * log10 x.
Proof.
  unfold log10, Rpower. rewrite ln_exp. pose proof ln_10_pos.
  field. lra.
Qed.


Lemma Rpower_10_mult_log10 (m x : R) :
  Rpower 10 (m * log10 x) = Rpower x m.
Proof.
  unfold Rpower, log10. f_equal. pose proof ln_10_pos. field. lra.
Qed.

Lemma logs_of_nonempty (n_chars : list Z) :
  n_chars <> [] -> logs_of n_chars <> [].
Proof. destruct n_chars; [congruence|discriminate]. Qed.

(** The fit of durations whose logarithms are [c + p * log10 size]. *)
Lemma fitter_affine (n_chars : list Z) (times : list R) (c p : R) :
  Forall (fun n => (0 < n)%Z) n_chars ->
  two_distinct n_chars ->
  Forall (fun t => 0 < t) times ->
  map log10 times = map (fun v => c + p * v) (logs_of n_chars) ->
  fitter n_chars times
  = Ok (mkFit (Fin p) (Fin c) (Fin (if Req_dec_T p 0 then 0 else 1))).
Proof.
  intros Hn Hd Ht Hlog.
  pose proof (two_distinct_nonempty _ Hd) as Hne.
  pose proof (logs_of_nonempty _ Hne) as Hx.
  assert (Hlen : List.length n_chars = List.length times).
  { apply (f_equal (@List.length R)) in Hlog.
    unfold logs_of in Hlog. rewrite !length_map in Hlog. congruence. }
  rewrite (fitter_run _ _ Hne Hlen Hn Ht). cbv zeta. rewrite Hlog.
  rewrite cov_affine_r, cov_affine_both, mean_affine by exact Hx.
  pose proof (logs_distinct _ Hn Hd) as HA.
  pose proof (cov_sq_nonneg (logs_of n_chars)) as HA0.
  set (A := cov (logs_of n_chars) (logs_of n_chars)) in *.
  set (mx := mean (logs_of n_chars)).
  rewrite np_divide_fin by exact HA.
  replace (A * (p * p * A)) with (Rsqr (p * A)) by (unfold Rsqr; ring).
  rewrite sqrt_Rsqr_abs.
  cbn [fsquare fmul fsub]. f_equal. f_equal.
  - f_equal. field. exact HA.
  - f_equal. field. exact HA.
  - f_equal. destruct (Req_dec_T p 0) as [Hp|Hp].
    + subst p. rewrite Rmult_0_l, Rabs_R0.
      destruct (Req_dec_T 0 0) as [_|H]; [lra|contradiction].
    + assert (HpA : p * A <> 0) by (apply Rmult_integral_contrapositive; split; assumption).
      destruct (Req_dec_T (Rabs (p * A)) 0) as [H0|_];
        [apply Rabs_no_R0 in HpA; contradiction|].
      destruct (Rcase_abs (p * A)) as [Hneg|Hpos].
      * rewrite (Rabs_left _ Hneg).
        replace (p * A / - (p * A)) with (-1) by (field; split; assumption).
        unfold clip. destruct (Rlt_dec 1 (-1)); [lra|].
        destruct (Rlt_dec (-1) (-1)); lra.
      * rewrite (Rabs_right _ Hpos).
        replace (p * A / (p * A)) with 1 by (field; split; assumption).
        unfold clip. destruct (Rlt_dec 1 1); [lra|].
        destruct (Rlt_dec 1 (-1)); lra.
Qed.

Lemma power_law_logs (n_chars : list Z) (a p : R) :
  0 < a ->
  Forall (fun n => (0 < n)%Z) n_chars ->
  map log10 (map (fun n => a * Rpower (IZR n) p) n_chars)
  = map (fun v => log10 a + p * v) (logs_of n_chars).
Proof.
  intros Ha Hn. unfold logs_of. rewrite !map_map.
  apply map_ext_in. intros n Hin.
  rewrite log10_mult by (try exact Ha; apply exp_pos).
  rewrite log10_Rpower. reflexivity.
Qed.

Lemma power_law_positive (n_chars : list Z) (a p : R) :
  0 < a ->
  Forall (fun t => 0 < t) (map (fun n => a * Rpower (IZR n) p) n_chars).
Proof.
  intros Ha. apply Forall_map, Forall_forall. intros n _.
  apply Rmult_lt_0_compat; [exact Ha|apply exp_pos].
Qed.

(** When the durations follow a power law [a * size^p] exactly, with
    [p <> 0], the fitter returns its exponent as slope, [log10 a] as
    intercept and an [r_squared] of one. *)
Theorem fitter_on_power_law (n_chars : list Z) (a p : R) :
  Forall (fun n => (0 < n)%Z) n_chars ->
  two_distinct n_chars ->
  0 < a ->
  p <> 0 ->
  fitter n_chars (map (fun n => a * Rpower (IZR n) p) n_chars)
  = Ok (mkFit (Fin p) (Fin (log10 a)) (Fin 1)).
Proof.
  intros Hn Hd Ha Hp.
  rewrite (fitter_affine n_chars _ (log10 a) p Hn Hd
             (power_law_positive n_chars a p Ha)
             (power_law_logs n_chars a p Ha Hn)).
  destruct (Req_dec_T p 0); [contradiction|reflexivity].
Qed.

(** When every text took the same time [d], the fitter returns the flat
    line, slope zero and intercept [log10 d], with an [r_squared] of zero:
    a zero variance of the durations sets the correlation to zero. *)
Theorem fitter_on_constant_durations (n_chars : list Z) (d : R) :
  Forall (fun n => (0 < n)%Z) n_chars ->
  two_distinct n_chars ->
  0 < d ->
  fitter n_chars (map (fun _ => d) n_chars)
  = Ok (mkFit (Fin 0) (Fin (log10 d)) (Fin 0)).
Proof.
  intros Hn Hd Hpos.
  rewrite (fitter_affine n_chars _ (log10 d) 0 Hn Hd).
  - destruct (Req_dec_T 0 0) as [_|H]; [reflexivity|contradiction].
  - apply Forall_map, Forall_forall. intros n _. exact Hpos.
  - unfold logs_of. rewrite !map_map. apply map_ext. intros n. lra.
Qed.

End FitterData.

Section FitterRoundTrip.

Import Fitter Notebook.




Lemma float64_not_negative (v : R) : 0 <= v -> not_negative (float64 v).
Proof.
  intros Hv. unfold float64.
  destruct (Rle_dec float_overflow (Rabs v)).
  - cbn [not_negative]. unfold is_negative.
    destruct (Rlt_dec v 0); [lra|reflexivity].
  - destruct (Rle_dec (Rabs v) float_underflow); cbn [not_negative]; lra.
Qed.

Lemma fpow10_not_negative (a : pyfloat) : not_negative (fpow10 a).
Proof.
  destruct a as [x|[|]|]; cbn [fpow10 not_negative];
    try (apply float64_not_negative; left; apply exp_pos);
    try reflexivity; try lra; exact I.
Qed.

Lemma np_multiply_not_negative (a b : pyfloat) :
  not_negative a -> not_negative b -> not_negative (np_multiply a b).
Proof.
  assert (Hsign : forall x, 0 <= x -> is_negative x = false).
  { intros x Hx. unfold is_negative. destruct (Rlt_dec x 0); [lra|reflexivity]. }
  destruct a as [x|s|], b as [y|s'|]; cbn [not_negative np_multiply];
    intros Ha Hb; try exact I.
  - apply float64_not_negative. apply Rmult_le_pos; assumption.
  - subst s'. destruct (Req_dec_T x 0); [exact I|].
    cbn [not_negative]. rewrite (Hsign x Ha). reflexivity.
  - subst s. destruct (Req_dec_T y 0); [exact I|].
    cbn [not_negative]. rewrite (Hsign y Hb). reflexivity.
  - subst s s'. reflexivity.
Qed.

(** Whatever the fit, both extrapolation functions return the same value
    at a positive size, and never one below zero: the predicted duration
    is a number that is zero or positive, the positive infinity or
    [nan]. *)
Theorem prediction_never_negative (m b : pyfloat) (x : R) :
  0 < x ->
  exists v,
    reg_spacy m b x = Ok v /\ reg_nltk m b x = Ok v /\ not_negative v.
Proof.
  intros Hx. unfold reg_spacy, reg_nltk.
  rewrite (math_log10_pos _ Hx). cbn [bind].
  eexists. split; [reflexivity|]. split; [reflexivity|].
  apply np_multiply_not_negative; apply fpow10_not_negative.
Qed.

(** *** Changing the unit of the sizes *)

Lemma sum_dev_shift_l (mx my c : R) (x y : list R) :
  sum_dev (c + mx) my (map (fun v => c + v) x) y = sum_dev mx my x y.
Proof.
  revert y. induction x as [|a x IH]; intros [|d y]; simpl; try reflexivity.
  rewrite IH. lra.
Qed.

Lemma cov_shift_l (c : R) (x y : list R) :
  x <> [] -> cov (map (fun v => c + v) x) y = cov x y.
Proof.
  intros Hx. unfold cov. rewrite mean_shift by exact Hx.
  rewrite sum_dev_shift_l, length_map. reflexivity.
Qed.

Lemma logs_of_scaled (c : Z) (n_chars : list Z) :
  (0 < c)%Z ->
  Forall (fun n => (0 < n)%Z) n_chars ->
  logs_of (map (Z.mul c) n_chars)
  = map (fun v => log10 (IZR c) + v) (logs_of n_chars).
Proof.
  intros Hc Hn. unfold logs_of. rewrite !map_map.
  apply map_ext_in. intros n Hin. rewrite Forall_forall in Hn.
  rewrite mult_IZR. apply log10_mult; apply IZR_lt; [exact Hc|apply Hn, Hin].
Qed.

(** On a valid input, multiplying every size by a constant [c > 0] leaves
    the slope and [r_squared] of the fit as they are and takes
    [slope * log10 c] off the intercept. *)
Theorem fitter_size_scale_invariance (n_chars : list Z) (times : list R)
  (c : Z) :
  valid_input n_chars times ->
  (0 < c)%Z ->
  exists m b r2,
    fitter n_chars times = Ok (mkFit (Fin m) (Fin b) (Fin r2)) /\
    fitter (map (Z.mul c) n_chars) times
    = Ok (mkFit (Fin m) (Fin (b - m * log10 (IZR c))) (Fin r2)).
Proof.
  intros (Hlen & Hn & Ht & Hd) Hc.
  pose proof (two_distinct_nonempty _ Hd) as Hne.
  pose proof (logs_of_nonempty _ Hne) as Hx.
  assert (Hne' : map (Z.mul c) n_chars <> []).
  { destruct n_chars; [congruence|discriminate]. }
  assert (Hlen' : List.length (map (Z.mul c) n_chars) = List.length times)
    by (rewrite length_map; exact Hlen).
  assert (Hn' : Forall (fun n => (0 < n)%Z) (map (Z.mul c) n_chars)).
  { apply Forall_map. eapply Forall_impl; [|exact Hn].
    intros n Hpos. cbv beta. apply Z.mul_pos_pos; assumption. }
  rewrite (fitter_run _ _ Hne Hlen Hn Ht).
  rewrite (fitter_run _ _ Hne' Hlen' Hn' Ht).
  cbv zeta. rewrite (logs_of_scaled c n_chars Hc Hn).
  rewrite cov_shift_l, cov_shift_both, mean_shift by exact Hx.
  rewrite np_divide_fin by (apply logs_distinct; assumption).
  cbn [fsquare fmul fsub].
  eexists _, _, _. split; [reflexivity|].
  f_equal. f_equal. f_equal. ring.
Qed.

End FitterRoundTrip.

(** * The fit as a least-squares line *)

Section LeastSquares.

Import Fitter Notebook.

Lemma squared_error_expand (mx my m b : R) (x y : list R) :
  List.length x = List.length y ->
  squared_error m b x y
  = sum_dev my my y y - 2 * m * sum_dev mx my x y
    + m * m * sum_dev mx mx x x
    + 2 * (my - m * mx - b)
      * ((sum y - INR (List.length y) * my)
         - m * (sum x - INR (List.length x) * mx))
    + INR (List.length x) * ((my - m * mx - b) * (my - m * mx - b)).
Proof.
  revert y. induction x as [|a x IH]; intros [|c y] H;
    try discriminate.
  - simpl. ring.
  - injection H as H.
    cbn [squared_error sum_dev sum fold_right List.length].
    fold (sum x). fold (sum y). rewrite (IH y H), !S_INR. ring.
Qed.

Lemma sum_minus_mean (l : list R) :
  l <> [] -> sum l - INR (List.length l) * mean l = 0.
Proof.
  intros Hl. destruct l as [|a l]; [congruence|].
  unfold mean. pose proof (INR_length_cons a l). field. lra.
Qed.

Lemma squared_error_at_means (m b : R) (x y : list R) :
  x <> [] ->
  List.length x = List.length y ->
  squared_error m b x y
  = sum_dev (mean y) (mean y) y y
    - 2 * m * sum_dev (mean x) (mean y) x y
    + m * m * sum_dev (mean x) (mean x) x x
    + INR (List.length x)
      * ((mean y - m * mean x - b) * (mean y - m * mean x - b)).
Proof.
  intros Hx Hlen.
  assert (Hy : y <> []) by (destruct x, y; try congruence; discriminate).
  rewrite (squared_error_expand (mean x) (mean y) m b x y Hlen).
  rewrite (sum_minus_mean x Hx), (sum_minus_mean y Hy). ring.
Qed.

Lemma sum_dev_of_cov (x y : list R) :
  x <> [] ->
  sum_dev (mean x) (mean y) x y = INR (List.length x) * cov x y.
Proof.
  intros Hx. destruct x as [|a x]; [congruence|].
  unfold cov. pose proof (INR_length_cons a x). field. lra.
Qed.

(** On a valid input the line the fitter returns is the least-squares
    line of the points [(log10 size, log10 duration)]: no other slope and
    intercept give a smaller sum of squared deviations. *)
Theorem fitter_least_squares (n_chars : list Z) (times : list R) :
  valid_input n_chars times ->
  exists m b r2,
    fitter n_chars times = Ok (mkFit (Fin m) (Fin b) (Fin r2)) /\
    forall m' b',
      squared_error m b (logs_of n_chars) (map log10 times)
      <= squared_error m' b' (logs_of n_chars) (map log10 times).
Proof.
  intros (Hlen & Hn & Ht & Hd).
  pose proof (two_distinct_nonempty _ Hd) as Hne.
  pose proof (logs_of_nonempty _ Hne) as Hx.
  pose proof (logs_distinct _ Hn Hd) as HA.
  rewrite (fitter_run _ _ Hne Hlen Hn Ht). cbv zeta.
  rewrite np_divide_fin by exact HA. cbn [fsquare fmul fsub].
  eexists _, _, _. split; [reflexivity|].
  intros m' b'.
  assert (Hl : List.length (logs_of n_chars) = List.length (map log10 times))
    by (unfold logs_of; rewrite !length_map; exact Hlen).
  rewrite !(squared_error_at_means _ _ _ _ Hx Hl).
  set (x := logs_of n_chars) in *. set (y := map log10 times) in *.
  assert (Hy : y <> []) by (destruct x, y; try congruence; discriminate).
  rewrite !(sum_dev_of_cov x _ Hx) in *.
  pose proof (cov_sq_nonneg x) as HA0.
  destruct x as [|x0 x'] eqn:Ex; [congruence|]. rewrite <- Ex in *.
  assert (Hnpos : 0 < INR (List.length x))
    by (rewrite Ex; apply INR_length_cons).
  set (n := INR (List.length x)) in *.
  set (A := cov x x) in *. set (C := cov x y) in *.
  set (mx := mean x). set (my := mean y).
  replace (my - C / A * mx - (my - C / A * mx)) with 0 by ring.
  assert (HC : C = C / A * A) by (field; exact HA).
  set (m := C / A) in *.
  set (e := my - m' * mx - b').
  assert (Hdiff :
    (sum_dev my my y y - 2 * m' * (n * C) + m' * m' * (n * A) + n * (e * e))
    - (sum_dev my my y y - 2 * m * (n * C) + m * m * (n * A) + n * (0 * 0))
    = n * A * ((m' - m) * (m' - m)) + n * (e * e)).
  { rewrite HC. ring. }
  assert (0 <= n * A * ((m' - m) * (m' - m))).
  { apply Rmult_le_pos; [apply Rmult_le_pos; lra|].
    pose proof (Rle_0_sqr (m' - m)) as Hs. unfold Rsqr in Hs. exact Hs. }
  assert (0 <= n * (e * e)).
  { apply Rmult_le_pos; [lra|].
    pose proof (Rle_0_sqr e) as Hs. unfold Rsqr in Hs. exact Hs. }
  lra.
Qed.

(** On a valid input [r_squared] is the share of the variation of the log
    durations that the fitted line accounts for: the squared deviations
    left by the fitted line are [1 - r_squared] times those left by the
    flat line through the mean log duration. *)
Theorem residual_is_one_minus_r_squared (n_chars : list Z) (times : list R) :
  valid_input n_chars times ->
  exists m b r2,
    fitter n_chars times = Ok (mkFit (Fin m) (Fin b) (Fin r2)) /\
    squared_error m b (logs_of n_chars) (map log10 times)
    = (1 - r2)
      * squared_error 0 (mean (map log10 times))
          (logs_of n_chars) (map log10 times).
Proof.
  intros (Hlen & Hn & Ht & Hd).
  pose proof (two_distinct_nonempty _ Hd) as Hne.
  pose proof (logs_of_nonempty _ Hne) as Hx.
  pose proof (logs_distinct _ Hn Hd) as HA.
  rewrite (fitter_run _ _ Hne Hlen Hn Ht). cbv zeta.
  rewrite np_divide_fin by exact HA. cbn [fsquare fmul fsub].
  eexists _, _, _. split; [reflexivity|].
  assert (Hl : List.length (logs_of n_chars) = List.length (map log10 times))
    by (unfold logs_of; rewrite !length_map; exact Hlen).
  rewrite !(squared_error_at_means _ _ _ _ Hx Hl).
  pose proof (cov_cauchy_schwarz _ _ Hl) as Hcs.
  pose proof (clip_correlation _ _ Hl) as Hclip.
  set (x := logs_of n_chars) in *. set (y := map log10 times) in *.
  assert (Hy : y <> []) by (destruct x, y; try congruence; discriminate).
  assert (Hyy : sum_dev (mean y) (mean y) y y = INR (List.length x) * cov y y).
  { rewrite Hl. apply sum_dev_of_cov, Hy. }
  rewrite Hyy, !(sum_dev_of_cov x _ Hx).
  pose proof (cov_sq_nonneg x) as HA0. pose proof (cov_sq_nonneg y) as HB0.
  set (n := INR (List.length x)).
  set (A := cov x x) in *. set (B := cov y y) in *. set (C := cov x y) in *.
  set (mx := mean x). set (my := mean y).
  assert (HAB : 0 <= A * B) by (apply Rmult_le_pos; assumption).
  destruct (Req_dec_T (sqrt (A * B)) 0) as [Hs|Hs].
  - apply sqrt_eq_0 in Hs; [|exact HAB].
    assert (HB : B = 0).
    { apply Rmult_integral in Hs. destruct Hs; [contradiction|assumption]. }
    assert (HC : C = 0) by (rewrite HB in Hcs; nra).
    rewrite HB, HC. unfold Rdiv. ring.
  - rewrite (Hclip Hs).
    pose proof (sqrt_sqrt _ HAB) as Hss.
    assert (HABn : A * B <> 0).
    { intros H0. apply Hs. rewrite H0. apply sqrt_0. }
    assert (HB : B <> 0).
    { intros H0. apply HABn. rewrite H0. ring. }
    assert (Hr : C / sqrt (A * B) * (C / sqrt (A * B)) = C * C / (A * B)).
    { rewrite <- Hss at 3. field. exact Hs. }
    rewrite Hr. field. split; assumption.
Qed.

End LeastSquares.

(** * The notebook from the corpus to the figure *)

Section NotebookFacts.

Import Notebook.

Variable clock : nat -> R.
Variable sent_tokenize : string -> list string.
Variable word_tokenize : string -> list string.

Lemma log_times_cases (times : list R) :
  (exists l, Fitter.log_times times = Ok l) \/
  Fitter.log_times times = Raise (ValueError "math domain error").
Proof.
  destruct (Forall_Exists_dec (fun t => 0 < t) (fun t => Rlt_dec 0 t) times)
    as [H|H].
  - left. eexists. apply log_times_ok, H.
  - right. apply log_times_raises.
    eapply Exists_impl; [|exact H]. intros t Ht. cbv beta in Ht. lra.
Qed.

(** A size or a duration that is not positive stops the regression cells
    at the logarithms. *)
Lemma regression_cells_domain_error (n_chars : list Z) (spacy nltk : list R) :
  Exists (fun n => (n <= 0)%Z) n_chars \/
  Exists (fun t => t <= 0) spacy \/ Exists (fun t => t <= 0) nltk ->
  Fitter.regression_cells n_chars spacy nltk
  = Raise (ValueError "math domain error").
Proof.
  intros H. unfold Fitter.regression_cells.
  destruct (log_sizes_cases n_chars) as [[lc Hlc]|Hlc]; rewrite Hlc;
    cbn [Fitter.bind]; [|reflexivity].
  destruct (log_times_cases spacy) as [[ls Hls]|Hls]; rewrite Hls;
    cbn [Fitter.bind]; [|reflexivity].
  destruct (log_times_cases nltk) as [[ln Hln]|Hln]; rewrite Hln;
    cbn [Fitter.bind]; [|reflexivity].
  destruct H as [H|[H|H]].
  - rewrite (log_sizes_raises _ H) in Hlc. discriminate.
  - rewrite (log_times_raises _ H) in Hls. discriminate.
  - rewrite (log_times_raises _ H) in Hln. discriminate.
Qed.

Lemma best_of_three_positive (t0 i : nat) :
  (forall k, clock k < clock (S k)) ->
  0 < Runner.best_of_three clock t0 i.
Proof.
  intros Hclock. unfold Runner.best_of_three, Runner.trial_duration.
  assert (Hd : forall k, 0 < clock (k + 1) - clock k).
  { intros k. replace (k + 1)%nat with (S k) by lia.
    specialize (Hclock k). lra. }
  pose proof (Hd (t0 + 6 * i + 2 * 0)%nat).
  pose proof (Hd (t0 + 6 * i + 2 * 1)%nat).
  pose proof (Hd (t0 + 6 * i + 2 * 2)%nat).
  unfold Rmin. repeat destruct (Rle_dec _ _); assumption.
Qed.

Lemma best_of_three_stalled (t0 i : nat) :
  Exists (fun d => d <= 0) (Runner.sample_trials clock t0 i) ->
  Runner.best_of_three clock t0 i <= 0.
Proof.
  unfold Runner.sample_trials, Runner.range, Runner.best_of_three.
  cbn [seq map]. intros H.
  set (d0 := Runner.trial_duration clock (t0 + 6 * i) 0) in *.
  set (d1 := Runner.trial_duration clock (t0 + 6 * i) 1) in *.
  set (d2 := Runner.trial_duration clock (t0 + 6 * i) 2) in *.
  pose proof (Rmin_l d0 (Rmin d1 d2)). pose proof (Rmin_r d0 (Rmin d1 d2)).
  pose proof (Rmin_l d1 d2). pose proof (Rmin_r d1 d2).
  repeat (apply Exists_cons in H; destruct H as [H|H];
          [cbv beta in H; lra|]).
  apply Exists_nil in H. contradiction.
Qed.

Lemma recorded_stalled (t0 len i : nat) :
  (i < len)%nat ->
  Exists (fun d => d <= 0) (Runner.sample_trials clock t0 i) ->
  Exists (fun t => t <= 0)
    (map (Runner.best_of_three clock t0) (seq 0 len)).
Proof.
  intros Hi H. apply Exists_exists.
  exists (Runner.best_of_three clock t0 i). split.
  - apply in_map, in_seq. lia.
  - apply best_of_three_stalled, H.
Qed.

(** If a single trial of any sample, in either cell, measures a duration
    that is not positive, the notebook fails with
    [ValueError: math domain error], and it does so only after both
    timing cells have run over the whole corpus. *)
Theorem notebook_fails_on_stalled_trial (text_data : list string)
  (w : Runner.World) (i : nat) :
  (i < List.length text_data)%nat ->
  Exists (fun d => d <= 0) (Runner.sample_trials clock (Runner.ticks w) i) \/
  Exists (fun d => d <= 0)
    (Runner.sample_trials clock
       (Runner.ticks w + 6 * List.length text_data) i) ->
  exists w',
    notebook clock sent_tokenize word_tokenize text_data w
    = (Raise (ValueError "math domain error"), w') /\
    Runner.ticks w' = (Runner.ticks w + 12 * List.length text_data)%nat.
Proof.
  intros Hi H. unfold notebook. rewrite timing_cells_run. cbv zeta.
  assert (Hraise : analysis text_data
                     (map (Runner.best_of_three clock (Runner.ticks w))
                        (seq 0 (List.length text_data)))
                     (map (Runner.best_of_three clock
                             (Runner.ticks w + 6 * List.length text_data))
                        (seq 0 (List.length text_data)))
                   = Raise (ValueError "math domain error")).
  { unfold analysis.
    rewrite regression_cells_domain_error; [reflexivity|].
    right. destruct H as [H|H]; [left|right];
      apply (recorded_stalled _ _ i); assumption. }
  rewrite Hraise. eexists. split; [reflexivity|]. cbn [Runner.ticks]. lia.
Qed.

(** If the corpus contains an empty text, the notebook fails with
    [ValueError: math domain error] whatever the clock does, and only
    after both timing cells have run over the whole corpus. *)
Theorem notebook_fails_on_empty_text (text_data : list string)
  (w : Runner.World) :
  In EmptyString text_data ->
  exists w',
    notebook clock sent_tokenize word_tokenize text_data w
    = (Raise (ValueError "math domain error"), w') /\
    Runner.ticks w' = (Runner.ticks w + 12 * List.length text_data)%nat.
Proof.
  intros H. unfold notebook. rewrite timing_cells_run. cbv zeta.
  unfold analysis.
  rewrite regression_cells_domain_error.
  - eexists. split; [reflexivity|]. cbn [Runner.ticks]. lia.
  - left. apply Exists_exists. exists 0%Z. split; [|lia].
    unfold n_chars.
    apply (in_map (fun text => Z.of_nat (String.length text)) _ _ H).
Qed.

Lemma fitter_valid_run (sizes : list Z) (times : list R) :
  Fitter.valid_input sizes times ->
  exists m b r2,
    Fitter.fitter sizes times
    = Ok (Fitter.mkFit (Fitter.Fin m) (Fitter.Fin b) (Fitter.Fin r2)) /\
    0 <= r2 <= 1.
Proof.
  intros (Hlen & Hn & Ht & Hd).
  rewrite (fitter_run _ _ (two_distinct_nonempty _ Hd) Hlen Hn Ht).
  cbv zeta. rewrite np_divide_fin by (apply logs_distinct; assumption).
  cbn [Fitter.fsquare Fitter.fmul Fitter.fsub].
  eexists _, _, _. split; [reflexivity|].
  destruct (Req_dec_T _ 0) as [_|_]; [lra|].
  match goal with |- context [Fitter.clip ?r] => pose proof (clip_bounds r) end.
  nra.
Qed.

Lemma n_chars_length (text_data : list string) :
  List.length (n_chars text_data) = List.length text_data.
Proof. unfold n_chars. apply length_map. Qed.

Lemma plot_spacy_run (m b : Fitter.pyfloat) (sizes : list Z) :
  Forall (fun n => (0 < n)%Z) sizes ->
  exists curve,
    Fitter.plot_spacy m b sizes = Ok curve /\
    List.length curve = List.length sizes /\
    Forall Fitter.not_negative curve.
Proof.
  intros Hn. eexists. split.
  - unfold Fitter.plot_spacy.
    apply (comprehension_ok _
             (fun n => Fitter.np_multiply (Fitter.fpow10 b)
                         (Fitter.fpow10
                            (Fitter.np_multiply m
                               (Fitter.Fin (Fitter.log10 (IZR n))))))).
    eapply Forall_impl; [|exact Hn]. intros n Hpos. cbv beta.
    unfold Fitter.reg_spacy.
    rewrite math_log10_pos by (apply IZR_lt; exact Hpos). reflexivity.
  - split; [apply length_map|].
    apply Forall_map, Forall_forall. intros n _.
    apply np_multiply_not_negative; apply fpow10_not_negative.
Qed.

Lemma plot_nltk_run (m b : Fitter.pyfloat) (sizes : list Z) :
  Forall (fun n => (0 < n)%Z) sizes ->
  exists curve,
    Fitter.plot_nltk m b sizes = Ok curve /\
    List.length curve = List.length sizes /\
    Forall Fitter.not_negative curve.
Proof.
  intros Hn. eexists. split.
  - unfold Fitter.plot_nltk.
    apply (comprehension_ok _
             (fun n => Fitter.np_multiply (Fitter.fpow10 b)
                         (Fitter.fpow10
                            (Fitter.np_multiply m
                               (Fitter.Fin (Fitter.log10 (IZR n))))))).
    eapply Forall_impl; [|exact Hn]. intros n Hpos. cbv beta.
    unfold Fitter.reg_nltk.
    rewrite math_log10_pos by (apply IZR_lt; exact Hpos). reflexivity.
  - split; [apply length_map|].
    apply Forall_map, Forall_forall. intros n _.
    apply np_multiply_not_negative; apply fpow10_not_negative.
Qed.

(** With a clock that every reading finds later than the one before, no
    empty text and two texts of different lengths, the notebook runs to
    its figure: both fits are lines with real slope and intercept and an
    [r_squared] between 0 and 1, every measured duration is positive, and
    each plotted curve has one value per text, none below zero (a value
    may be zero, an infinity or [nan] when the extrapolation leaves the
    range of a double). *)
Theorem notebook_completes (text_data : list string) (w : Runner.World) :
  (forall k, clock k < clock (S k)) ->
  Forall (fun text => text <> EmptyString) text_data ->
  Fitter.two_distinct (n_chars text_data) ->
  exists fig w' ms bs rs mn bn rn,
    notebook clock sent_tokenize word_tokenize text_data w = (Ok fig, w') /\
    sizes fig = n_chars text_data /\
    fit_spacy fig
    = Fitter.mkFit (Fitter.Fin ms) (Fitter.Fin bs) (Fitter.Fin rs) /\
    0 <= rs <= 1 /\
    fit_nltk fig
    = Fitter.mkFit (Fitter.Fin mn) (Fitter.Fin bn) (Fitter.Fin rn) /\
    0 <= rn <= 1 /\
    Forall (fun t => 0 < t) (points_spacy fig) /\
    Forall (fun t => 0 < t) (points_nltk fig) /\
    List.length (curve_spacy fig) = List.length text_data /\
    Forall Fitter.not_negative (curve_spacy fig) /\
    List.length (curve_nltk fig) = List.length text_data /\
    Forall Fitter.not_negative (curve_nltk fig).
Proof.
  intros Hclock Htexts Hd.
  unfold notebook. rewrite timing_cells_run. cbv zeta.
  set (s := map (Runner.best_of_three clock (Runner.ticks w))
              (seq 0 (List.length text_data))).
  set (n := map (Runner.best_of_three clock
                   (Runner.ticks w + 6 * List.length text_data))
              (seq 0 (List.length text_data))).
  assert (Hs : Forall (fun t => 0 < t) s).
  { apply Forall_map, Forall_forall. intros i _.
    apply best_of_three_positive, Hclock. }
  assert (Hn : Forall (fun t => 0 < t) n).
  { apply Forall_map, Forall_forall. intros i _.
    apply best_of_three_positive, Hclock. }
  pose proof (proj2 (n_chars_positive text_data) Htexts) as Hsizes.
  assert (Hvs : Fitter.valid_input (n_chars text_data) s).
  { split; [|split; [exact Hsizes|split; [exact Hs|exact Hd]]].
    subst s. rewrite n_chars_length, length_map, length_seq. reflexivity. }
  assert (Hvn : Fitter.valid_input (n_chars text_data) n).
  { split; [|split; [exact Hsizes|split; [exact Hn|exact Hd]]].
    subst n. rewrite n_chars_length, length_map, length_seq. reflexivity. }
  destruct (fitter_valid_run _ _ Hvs) as (ms & bs & rs & Hfs & Hrs).
  destruct (fitter_valid_run _ _ Hvn) as (mn & bn & rn & Hfn & Hrn).
  pose proof (proj2 (regression_cells_fits _ _ _ _ _) (conj Hfs Hfn)) as Hreg.
  destruct (plot_spacy_run (Fitter.Fin ms) (Fitter.Fin bs) _ Hsizes)
    as (cs & Hcs & Hlcs & Hpcs).
  destruct (plot_nltk_run (Fitter.Fin mn) (Fitter.Fin bn) _ Hsizes)
    as (cn & Hcn & Hlcn & Hpcn).
  unfold analysis. rewrite Hreg.
  cbn [Fitter.bind Fitter.fit_slope Fitter.fit_intercept].
  rewrite Hcs. cbn [Fitter.bind]. rewrite Hcn. cbn [Fitter.bind].
  rewrite n_chars_length in Hlcs, Hlcn.
  exists (mkFigure (n_chars text_data) s n
            (Fitter.mkFit (Fitter.Fin ms) (Fitter.Fin bs) (Fitter.Fin rs))
            (Fitter.mkFit (Fitter.Fin mn) (Fitter.Fin bn) (Fitter.Fin rn))
            cs cn).
  eexists. exists ms, bs, rs, mn, bn, rn.
  split; [reflexivity|]. cbn [sizes fit_spacy fit_nltk points_spacy
                               points_nltk curve_spacy curve_nltk].
  repeat (split; [first [reflexivity|assumption|lra]|]). assumption.
Qed.

Lemma fitter_single (size : Z) (t : R) :
  (0 < size)%Z -> 0 < t ->
  Fitter.fitter [size] [t]
  = Ok (Fitter.mkFit Fitter.NaN Fitter.NaN (Fitter.Fin 0)).
Proof.
  intros Hsize Ht.
  rewrite fitter_run;
    [ | discriminate | reflexivity
      | apply Forall_cons; [exact Hsize|apply Forall_nil]
      | apply Forall_cons; [exact Ht|apply Forall_nil] ].
  cbv zeta. unfold Fitter.logs_of. cbn [map].
  set (a := Fitter.log10 (IZR size)). set (b := Fitter.log10 t).
  assert (Hxx : Fitter.cov [a] [a] = 0)
    by (unfold Fitter.cov, Fitter.mean, Fitter.sum; simpl; field).
  assert (Hxy : Fitter.cov [a] [b] = 0)
    by (unfold Fitter.cov, Fitter.mean, Fitter.sum; simpl; field).
  assert (Hyy : Fitter.cov [b] [b] = 0)
    by (unfold Fitter.cov, Fitter.mean, Fitter.sum; simpl; field).
  rewrite Hxx, Hxy, Hyy, Rmult_0_l, sqrt_0.
  unfold Fitter.np_divide.
  destruct (Req_dec_T 0 0) as [_|H]; [|contradiction].
  cbn [Fitter.fsquare Fitter.fmul Fitter.fsub]. rewrite Rmult_0_l.
  reflexivity.
Qed.

(** On a corpus of a single, non-empty text, with an advancing clock, the
    notebook does not fail: one point gives no line, both fits have [nan]
    for slope and intercept and an [r_squared] of zero, and both plotted
    curves consist of a single [nan]. *)
Theorem notebook_on_single_text (text : string) (w : Runner.World) :
  (forall k, clock k < clock (S k)) ->
  text <> EmptyString ->
  exists fig w',
    notebook clock sent_tokenize word_tokenize [text] w = (Ok fig, w') /\
    fit_spacy fig = Fitter.mkFit Fitter.NaN Fitter.NaN (Fitter.Fin 0) /\
    fit_nltk fig = Fitter.mkFit Fitter.NaN Fitter.NaN (Fitter.Fin 0) /\
    curve_spacy fig = [Fitter.NaN] /\
    curve_nltk fig = [Fitter.NaN].
Proof.
  intros Hclock Htext.
  unfold notebook. rewrite timing_cells_run. cbv zeta.
  cbn [List.length seq map].
  assert (Hsize : (0 < Z.of_nat (String.length text))%Z).
  { destruct text; [congruence|]. simpl. lia. }
  pose proof (fitter_single _ _ Hsize
                (best_of_three_positive (Runner.ticks w) 0 Hclock)) as Hfs.
  pose proof (fitter_single _ _ Hsize
                (best_of_three_positive (Runner.ticks w + 6 * 1) 0 Hclock))
    as Hfn.
  pose proof (proj2 (regression_cells_fits _ _ _ _ _) (conj Hfs Hfn)) as Hreg.
  unfold analysis, n_chars. cbn [map]. rewrite Hreg.
  cbn [Fitter.bind Fitter.fit_slope Fitter.fit_intercept].
  unfold Fitter.plot_spacy, Fitter.plot_nltk, Fitter.reg_spacy, Fitter.reg_nltk.
  cbn [Fitter.comprehension].
  rewrite (math_log10_pos _ (IZR_lt _ _ Hsize)).
  cbn [Fitter.bind Fitter.np_multiply Fitter.fpow10].
  eexists _, _. split; [reflexivity|]. cbn. repeat split.
Qed.

End NotebookFacts.

(** * Instances *)

Section FitterInstances.

Import Fitter Notebook.

Lemma positive_two_sizes : Forall (fun n => (0 < n)%Z) [50; 150]%Z.
Proof.
  apply Forall_cons; [lia|]. apply Forall_cons; [lia|]. apply Forall_nil.
Defined.

Lemma distinct_two_sizes : two_distinct [50; 150]%Z.
Proof.
  exists 50%Z, 150%Z. split; [left; reflexivity|].
  split; [right; left; reflexivity|discriminate].
Defined.

Lemma fitter_on_power_law_witness :
  Forall (fun n => (0 < n)%Z) [50; 150]%Z /\ two_distinct [50; 150]%Z /\
  0 < 0.0002 /\ 1 <> 0 /\
  fitter [50; 150]%Z (map (fun n => 0.0002 * Rpower (IZR n) 1) [50; 150]%Z)
  = Ok (mkFit (Fin 1) (Fin (log10 0.0002)) (Fin 1)).
Proof.
  assert (Ha : 0 < 0.0002) by lra.
  assert (Hp : 1 <> 0) by lra.
  split; [exact positive_two_sizes|]. split; [exact distinct_two_sizes|].
  split; [exact Ha|]. split; [exact Hp|].
  apply (fitter_on_power_law [50; 150]%Z 0.0002 1
           positive_two_sizes distinct_two_sizes Ha Hp).
Defined.

Lemma fitter_on_constant_durations_witness :
  Forall (fun n => (0 < n)%Z) [50; 150]%Z /\ two_distinct [50; 150]%Z /\
  0 < 0.01 /\
  fitter [50; 150]%Z (map (fun _ => 0.01) [50; 150]%Z)
  = Ok (mkFit (Fin 0) (Fin (log10 0.01)) (Fin 0)).
Proof.
  assert (Hd : 0 < 0.01) by lra.
  split; [exact positive_two_sizes|]. split; [exact distinct_two_sizes|].
  split; [exact Hd|].
  apply (fitter_on_constant_durations [50; 150]%Z 0.01
           positive_two_sizes distinct_two_sizes Hd).
Defined.


Lemma log10_100 : log10 100 = 2.
Proof.
  replace 100 with (10 * 10) by lra.
  rewrite log10_mult, log10_10 by lra. lra.
Qed.

Lemma log10_1 : log10 1 = 0.
Proof. unfold log10. rewrite ln_1. unfold Rdiv. ring. Qed.




Lemma prediction_never_negative_witness :
  0 < 50 /\
  exists v,
    reg_spacy (Fin 1) (Fin (-5)) 50 = Ok v /\
    reg_nltk (Fin 1) (Fin (-5)) 50 = Ok v /\ not_negative v.
Proof.
  assert (H : 0 < 50) by lra.
  split; [exact H|].
  apply (prediction_never_negative (Fin 1) (Fin (-5)) 50 H).
Defined.

(** Sizes counted in two-byte units instead of characters. *)
Lemma fitter_size_scale_invariance_witness :
  valid_input [50; 150]%Z [0.01; 0.03] /\ (0 < 2)%Z /\
  exists m b r2,
    fitter [50; 150]%Z [0.01; 0.03] = Ok (mkFit (Fin m) (Fin b) (Fin r2)) /\
    fitter (map (Z.mul 2) [50; 150]%Z) [0.01; 0.03]
    = Ok (mkFit (Fin m) (Fin (b - m * log10 (IZR 2))) (Fin r2)).
Proof.
  assert (Hc : (0 < 2)%Z) by lia.
  split; [exact valid_two_samples|]. split; [exact Hc|].
  apply (fitter_size_scale_invariance [50; 150]%Z [0.01; 0.03] 2
           valid_two_samples Hc).
Defined.

Lemma fitter_least_squares_witness :
  valid_input [50; 150]%Z [0.01; 0.03] /\
  exists m b r2,
    fitter [50; 150]%Z [0.01; 0.03] = Ok (mkFit (Fin m) (Fin b) (Fin r2)) /\
    forall m' b',
      squared_error m b (logs_of [50; 150]%Z) (map log10 [0.01; 0.03])
      <= squared_error m' b' (logs_of [50; 150]%Z) (map log10 [0.01; 0.03]).
Proof.
  split; [exact valid_two_samples|].
  apply (fitter_least_squares [50; 150]%Z [0.01; 0.03] valid_two_samples).
Defined.

Lemma residual_is_one_minus_r_squared_witness :
  valid_input [50; 150]%Z [0.01; 0.03] /\
  exists m b r2,
    fitter [50; 150]%Z [0.01; 0.03] = Ok (mkFit (Fin m) (Fin b) (Fin r2)) /\
    squared_error m b (logs_of [50; 150]%Z) (map log10 [0.01; 0.03])
    = (1 - r2)
      * squared_error 0 (mean (map log10 [0.01; 0.03]))
          (logs_of [50; 150]%Z) (map log10 [0.01; 0.03]).
Proof.
  split; [exact valid_two_samples|].
  apply (residual_is_one_minus_r_squared [50; 150]%Z [0.01; 0.03]
           valid_two_samples).
Defined.

End FitterInstances.

Section NotebookInstances.

Import Notebook.

Local Open Scope string_scope.

Lemma clock_INR_advances : forall k, INR k < INR (S k).
Proof. intros k. rewrite S_INR. lra. Defined.

(** A clock stalled for the whole run. *)
Lemma notebook_fails_on_stalled_trial_witness :
  (0 < List.length ["Dracula"])%nat /\
  (Exists (fun d => d <= 0)
     (Runner.sample_trials (fun _ => 1478000000)
        (Runner.ticks Runner.fresh) 0) \/
   Exists (fun d => d <= 0)
     (Runner.sample_trials (fun _ => 1478000000)
        (Runner.ticks Runner.fresh + 6 * List.length ["Dracula"]) 0)) /\
  exists w',
    notebook (fun _ => 1478000000) (fun t => [t]) (fun t => [t])
      ["Dracula"] Runner.fresh
    = (Raise (ValueError "math domain error"), w') /\
    Runner.ticks w'
    = (Runner.ticks Runner.fresh + 12 * List.length ["Dracula"])%nat.
Proof.
  assert (Hi : (0 < List.length ["Dracula"])%nat) by (simpl; lia).
  assert (H : Exists (fun d => d <= 0)
                (Runner.sample_trials (fun _ => 1478000000)
                   (Runner.ticks Runner.fresh) 0) \/
              Exists (fun d => d <= 0)
                (Runner.sample_trials (fun _ => 1478000000)
                   (Runner.ticks Runner.fresh + 6 * List.length ["Dracula"])
                   0)).
  { left. apply Exists_cons_hd. unfold Runner.trial_duration. lra. }
  split; [exact Hi|]. split; [exact H|].
  apply (notebook_fails_on_stalled_trial (fun _ => 1478000000)
           (fun t => [t]) (fun t => [t]) ["Dracula"] Runner.fresh 0 Hi H).
Defined.

Lemma notebook_fails_on_empty_text_witness :
  In EmptyString ["Dracula"; EmptyString] /\
  exists w',
    notebook INR (fun t => [t]) (fun t => [t]) ["Dracula"; EmptyString]
      Runner.fresh
    = (Raise (ValueError "math domain error"), w') /\
    Runner.ticks w'
    = (Runner.ticks Runner.fresh
       + 12 * List.length ["Dracula"; EmptyString])%nat.
Proof.
  assert (H : In EmptyString ["Dracula"; EmptyString])
    by (right; left; reflexivity).
  split; [exact H|].
  apply (notebook_fails_on_empty_text INR (fun t => [t]) (fun t => [t])
           ["Dracula"; EmptyString] Runner.fresh H).
Defined.

Lemma notebook_completes_witness :
  (forall k, INR k < INR (S k)) /\
  Forall (fun text => text <> EmptyString) ["3 May."; "3 May. Bistritz."] /\
  Fitter.two_distinct (n_chars ["3 May."; "3 May. Bistritz."]) /\
  exists fig w' ms bs rs mn bn rn,
    notebook INR (fun t => [t]) (fun t => [t])
      ["3 May."; "3 May. Bistritz."] Runner.fresh
    = (Ok fig, w') /\
    sizes fig = n_chars ["3 May."; "3 May. Bistritz."] /\
    fit_spacy fig
    = Fitter.mkFit (Fitter.Fin ms) (Fitter.Fin bs) (Fitter.Fin rs) /\
    0 <= rs <= 1 /\
    fit_nltk fig
    = Fitter.mkFit (Fitter.Fin mn) (Fitter.Fin bn) (Fitter.Fin rn) /\
    0 <= rn <= 1 /\
    Forall (fun t => 0 < t) (points_spacy fig) /\
    Forall (fun t => 0 < t) (points_nltk fig) /\
    List.length (curve_spacy fig)
    = List.length ["3 May."; "3 May. Bistritz."] /\
    Forall Fitter.not_negative (curve_spacy fig) /\
    List.length (curve_nltk fig)
    = List.length ["3 May."; "3 May. Bistritz."] /\
    Forall Fitter.not_negative (curve_nltk fig).
Proof.
  assert (Ht : Forall (fun text => text <> EmptyString)
                 ["3 May."; "3 May. Bistritz."]).
  { apply Forall_cons; [discriminate|].
    apply Forall_cons; [discriminate|]. apply Forall_nil. }
  assert (Hd : Fitter.two_distinct (n_chars ["3 May."; "3 May. Bistritz."])).
  { exists 6%Z, 16%Z. split; [left; reflexivity|].
    split; [right; left; reflexivity|discriminate]. }
  split; [exact clock_INR_advances|]. split; [exact Ht|]. split; [exact Hd|].
  apply (notebook_completes INR (fun t => [t]) (fun t => [t])
           ["3 May."; "3 May. Bistritz."] Runner.fresh
           clock_INR_advances Ht Hd).
Defined.

Lemma notebook_on_single_text_witness :
  (forall k, INR k < INR (S k)) /\ "Dracula" <> EmptyString /\
  exists fig w',
    notebook INR (fun t => [t]) (fun t => [t]) ["Dracula"] Runner.fresh
    = (Ok fig, w') /\
    fit_spacy fig = Fitter.mkFit Fitter.NaN Fitter.NaN (Fitter.Fin 0) /\
    fit_nltk fig = Fitter.mkFit Fitter.NaN Fitter.NaN (Fitter.Fin 0) /\
    curve_spacy fig = [Fitter.NaN] /\
    curve_nltk fig = [Fitter.NaN].
Proof.
  assert (Ht : "Dracula" <> EmptyString) by discriminate.
  split; [exact clock_INR_advances|]. split; [exact Ht|].
  apply (notebook_on_single_text INR (fun t => [t]) (fun t => [t])
           "Dracula" Runner.fresh clock_INR_advances Ht).
Defined.

End NotebookInstances.

(** * A fit too steep to extrapolate *)

Section SteepFit.

Import Fitter.

Lemma log10_1000 : log10 1000 = 3.
Proof.
  replace 1000 with (10 * 100) by lra.
  rewrite log10_mult, log10_10, log10_100 by lra. lra.
Qed.

Lemma ln_10_gt_1 : 1 < ln 10.
Proof.
  rewrite <- (ln_exp 1) at 1. apply ln_increasing; [apply exp_pos|].
  pose proof exp_le_3. lra.
Qed.

Lemma log10_101_gap : 0 < log10 101 - log10 100 < 0.01.
Proof.
  unfold log10. pose proof ln_10_gt_1 as H10.
  assert (Hgap : ln 101 - ln 100 = ln 1.01).
  { replace 101 with (100 * 1.01) by lra. rewrite ln_mult by lra. ring. }
  assert (Hlo : 0 < ln 1.01).
  { rewrite <- ln_1. apply ln_increasing; lra. }
  assert (Hhi : ln 1.01 < 0.01).
  { rewrite <- (ln_exp 0.01). apply ln_increasing; [lra|].
    assert (Hne : 0.01 <> 0) by lra.
    pose proof (exp_ineq1 0.01 Hne). lra. }
  replace (ln 101 / ln 10 - ln 100 / ln 10) with (ln 1.01 / ln 10)
    by (rewrite <- Hgap; field; lra).
  split.
  - apply Rdiv_lt_0_compat; lra.
  - apply (Rmult_lt_reg_r (ln 10)); [lra|].
    unfold Rdiv. rewrite Rmult_assoc, Rinv_l, Rmult_1_r by lra. nra.
Qed.

Lemma fpow10_float64_overflow (v : R) :
  309 <= v -> fpow10 (float64 v) = Inf false.
Proof.
  intros Hv. unfold float64.
  rewrite (Rabs_right v) by lra.
  destruct (Rle_dec float_overflow v).
  - unfold is_negative. destruct (Rlt_dec v 0); [lra|reflexivity].
  - destruct (Rle_dec v float_underflow) as [Hu|_].
    + pose proof underflow_lt_pow_10_m307 as H1.
      assert (/ 10 ^ 307 <= 1).
      { rewrite <- Rinv_1. apply Rinv_le_contravar; [lra|].
        apply pow_R1_Rle. lra. }
      lra.
    + apply fpow10_overflow, Hv.
Qed.

(** C5 fails on the code.  On the sizes [100, 101] and the durations
    [1, 1000] the fit is a line of slope above 300; at the size 100 the
    power of ten of the intercept underflows to zero and the other power
    of ten overflows to an infinity, and their product is [nan], not the
    value of the power law, which is the measured duration 1. *)
Lemma reg_nan_on_steep_fit :
  let m := 3 / (log10 101 - log10 100) in
  let b := - m * log10 100 in
  fitter [100; 101]%Z [1; 1000] = Ok (mkFit (Fin m) (Fin b) (Fin 1)) /\
  0 < 100 /\
  power_law m b 100 = 1 /\
  reg_spacy (Fin m) (Fin b) 100 = Ok NaN /\
  reg_nltk (Fin m) (Fin b) 100 = Ok NaN /\
  reg_spacy (Fin m) (Fin b) 100 <> Ok (Fin (power_law m b 100)) /\
  reg_nltk (Fin m) (Fin b) 100 <> Ok (Fin (power_law m b 100)).
Proof.
  intros m b.
  pose proof log10_101_gap as [Hd0 Hd1].
  assert (Hmd : m * (log10 101 - log10 100) = 3).
  { unfold m. field. lra. }
  assert (Hm : 300 < m) by nra.
  assert (Hfit : fitter [100; 101]%Z [1; 1000]
                 = Ok (mkFit (Fin m) (Fin b) (Fin 1))).
  { rewrite (fitter_affine [100; 101]%Z [1; 1000] b m).
    - destruct (Req_dec_T m 0); [lra|reflexivity].
    - apply Forall_cons; [lia|]. apply Forall_cons; [lia|]. apply Forall_nil.
    - exists 100%Z, 101%Z. split; [left; reflexivity|].
      split; [right; left; reflexivity|discriminate].
    - apply Forall_cons; [lra|]. apply Forall_cons; [lra|]. apply Forall_nil.
    - unfold logs_of. cbn [map]. rewrite log10_1, log10_1000.
      f_equal; [unfold b; ring|]. f_equal. unfold b. lra. }
  assert (Hnan : np_multiply (fpow10 (Fin b))
                   (fpow10 (np_multiply (Fin m) (Fin (log10 100))))
                 = NaN).
  { unfold b. rewrite log10_100. cbn [np_multiply].
    rewrite fpow10_float64_overflow by lra.
    rewrite fpow10_underflow by lra.
    cbn [np_multiply]. destruct (Req_dec_T 0 0); [reflexivity|contradiction]. }
  assert (Hs : reg_spacy (Fin m) (Fin b) 100 = Ok NaN).
  { unfold reg_spacy. rewrite math_log10_pos by lra. cbn [bind].
    rewrite Hnan. reflexivity. }
  assert (Hn : reg_nltk (Fin m) (Fin b) 100 = Ok NaN).
  { unfold reg_nltk. rewrite math_log10_pos by lra. cbn [bind].
    rewrite Hnan. reflexivity. }
  assert (Hlaw : power_law m b 100 = 1).
  { unfold power_law, b.
    replace (- m * log10 100) with ((- m) * log10 100) by ring.
    rewrite Rpower_10_mult_log10, <- Rpower_plus.
    replace (- m + m) with 0 by ring. apply Rpower_O. lra. }
  split; [exact Hfit|]. split; [lra|]. split; [exact Hlaw|].
  split; [exact Hs|]. split; [exact Hn|].
  rewrite Hs, Hn. split; discriminate.
Qed.

End SteepFit.
